(** * PDFMentor: the annotation overlay of the PDF viewer

    A shallow embedding of [frontend/src/components/PDFViewer.tsx]:
    the React state of the [PDFViewer] component, the browser objects its
    handlers read (the window selection, the page containers, pending
    timers) and every handler that writes the state, followed by the
    properties of the highlight overlay.

    Conventions of the embedding.
    - JavaScript numbers holding pixel coordinates are exact rationals
      ([Qc]) in the state and its handlers, which only pass them on,
      compare none and subtract once.  Where a property depends on the
      rounding of binary64 (adding an offset back, the width of the
      rate-limit bar) the arithmetic is that of binary64 ([float]).
      Numbers holding counts and page indices are integers ([Z]).
    - A JavaScript string is a [string]; [null]/[undefined] is [None].
    - [Date.now()] and [Math.random()] are inputs of the handler that
      calls them: the millisecond clock as [Z], the random draw as the
      text that string concatenation renders it to.

    The later sections embed what surrounds the viewer: what it draws,
    the file validation and the uploader, the chat box, the application
    component that mounts them and the rate-limit indicator. *)

From Stdlib Require Import QArith Qcanon.
From Stdlib Require Import PrimFloat SpecFloat FloatOps.
From stdpp Require Import base numbers list strings gmap pretty.

Open Scope Z_scope.

(** ** Data model *)

(** The properties of a viewport rectangle that the handlers read
    ([rect.left], [rect.top], [rect.width], [rect.height]).  For the
    rectangles of [getClientRects()] and [getBoundingClientRect()],
    whose sizes are not negative, [left] and [top] are the origin. *)
Module ClientRect.
Record t : Type := mk { left : Qc; top : Qc; width : Qc; height : Qc }.
End ClientRect.

(** [new DOMRect(x, y, width, height)]. *)
Module DOMRect.
Record t : Type := mk { x : Qc; y : Qc; width : Qc; height : Qc }.
End DOMRect.

(** [position: { x: number; y: number }]. *)
Module Position.
Record t : Type := mk { x : Qc; y : Qc }.
End Position.

(** [interface Highlight]. *)
Module Highlight.
Record t : Type := mk {
  id : string;
  pageNumber : Z;
  rects : list DOMRect.t;
  color : string;
  text : string
}.
End Highlight.

(** An entry of [HIGHLIGHT_COLORS]. *)
Module Color.
Record t : Type := mk { name : string; value : string; border : string }.
End Color.

Definition HIGHLIGHT_COLORS : list Color.t :=
  [ Color.mk "Yellow" "rgba(255, 255, 0, 0.3)" "#ffd700";
    Color.mk "Green" "rgba(144, 238, 144, 0.3)" "#90ee90";
    Color.mk "Blue" "rgba(135, 206, 250, 0.3)" "#87ceeb";
    Color.mk "Pink" "rgba(255, 192, 203, 0.3)" "#ffb6c1";
    Color.mk "Orange" "rgba(255, 165, 0, 0.3)" "#ffa500" ].

(** [HIGHLIGHT_COLORS[0]]. *)
Definition defaultColor : Color.t :=
  Color.mk "Yellow" "rgba(255, 255, 0, 0.3)" "#ffd700".

(** The value of the [selectionData] state when it is not [null]. *)
Module SelectionData.
Record t : Type := mk {
  pageNumber : Z;
  rects : list DOMRect.t;
  text : string;
  position : Position.t
}.
End SelectionData.

(** The [useState] cells of the component. *)
Record State : Type := mkState {
  numPages : Z;
  error : option string;
  highlights : list Highlight.t;
  selectedColor : Color.t;
  selectionData : option SelectionData.t;
  highlightToDelete : option string
}.

(** *** Browser objects *)

(** A [Range], observed through [getClientRects()]. *)
Record Range : Type := mkRange { getClientRects : list ClientRect.t }.

(** A [Selection], observed through [isCollapsed], its ranges
    ([rangeCount], [getRangeAt]) and [toString()]. *)
Record Selection : Type := mkSelection {
  isCollapsed : bool;
  ranges : list Range;
  toString : string
}.

Definition rangeCount (s : Selection) : Z := Z.of_nat (length (ranges s)).

(** [selection.removeAllRanges()]: the selection becomes empty. *)
Definition removeAllRanges (_ : Selection) : Selection :=
  mkSelection true [] "".

(** A mounted page container, observed through
    [getBoundingClientRect()]. *)
Record HTMLDivElement : Type := mkDiv { getBoundingClientRect : ClientRect.t }.

(** The component instance together with what it reads and calls:
    - [view]: the React state;
    - [pageRefs]: [pageRefs.current], a page number mapped to its
      container or to [null];
    - [windowSelection]: what [window.getSelection()] returns;
    - [timers]: the page arguments of the [setTimeout] callbacks of
      [handleTextSelection] that have not fired yet, oldest first;
    - [onLoadSuccess]: the optional prop, [Some log] holding the
      arguments it was called with so far. *)
Record World : Type := mkWorld {
  view : State;
  pageRefs : gmap Z (option HTMLDivElement);
  windowSelection : option Selection;
  timers : list Z;
  onLoadSuccess : option (list Z)
}.

(** The state at mount: the initial values of the [useState] cells. *)
Definition initialState : State :=
  mkState 0 None [] defaultColor None None.

Definition mount (onLoad : option (list Z)) : World :=
  mkWorld initialState ∅ None [] onLoad.

(** *** State setters *)

Definition withView (f : State → State) (w : World) : World :=
  mkWorld (f (view w)) (pageRefs w) (windowSelection w) (timers w)
          (onLoadSuccess w).

Definition setNumPages (n : Z) : World → World :=
  withView (λ s, mkState n (error s) (highlights s) (selectedColor s)
                         (selectionData s) (highlightToDelete s)).

Definition setError (e : option string) : World → World :=
  withView (λ s, mkState (numPages s) e (highlights s) (selectedColor s)
                         (selectionData s) (highlightToDelete s)).

Definition setHighlights (f : list Highlight.t → list Highlight.t)
  : World → World :=
  withView (λ s, mkState (numPages s) (error s) (f (highlights s))
                         (selectedColor s) (selectionData s)
                         (highlightToDelete s)).

Definition setSelectedColor (c : Color.t) : World → World :=
  withView (λ s, mkState (numPages s) (error s) (highlights s) c
                         (selectionData s) (highlightToDelete s)).

Definition setSelectionData (d : option SelectionData.t) : World → World :=
  withView (λ s, mkState (numPages s) (error s) (highlights s)
                         (selectedColor s) d (highlightToDelete s)).

Definition setHighlightToDelete (i : option string) : World → World :=
  withView (λ s, mkState (numPages s) (error s) (highlights s)
                         (selectedColor s) (selectionData s) i).

(** ** Handlers *)

(** [onDocumentLoadSuccess({ numPages })]. *)
Definition onDocumentLoadSuccess (n : Z) (w : World) : World :=
  let w1 := setError None (setNumPages n w) in
  mkWorld (view w1) (pageRefs w1) (windowSelection w1) (timers w1)
          ((λ log, log ++ [n]) <$> onLoadSuccess w1).

(** [onDocumentLoadError(error)]. *)
Definition onDocumentLoadError (w : World) : World :=
  setError (Some "Failed to load PDF. Please try uploading again.") w.

(** *** Selection capture *)

(** A handler body either returns or raises. *)
Inductive outcome (A : Type) : Type :=
| Returned (a : A)
| Raised (what : string).
Arguments Returned {A} a.
Arguments Raised {A} what.

#[global] Instance outcome_bind : MBind outcome := λ A B k m,
  match m with
  | Returned a => k a
  | Raised e => Raised e
  end.

(** [selection.getRangeAt(i)] raises when the index is out of range. *)
Definition getRangeAt (s : Selection) (i : nat) : outcome Range :=
  match ranges s !! i with
  | Some r => Returned r
  | None => Raised "IndexSizeError"
  end.

(** The characters [String.prototype.trim] removes, among the code units
    below 256. *)
Definition isWhiteSpace (a : Ascii.ascii) : bool :=
  let n := Ascii.nat_of_ascii a in
  ((9 <=? n) && (n <=? 13) || (n =? 32) || (n =? 160))%nat.

Fixpoint trimStart (s : string) : string :=
  match s with
  | EmptyString => EmptyString
  | String a s' => if isWhiteSpace a then trimStart s' else s
  end.

Fixpoint trimEnd (s : string) : string :=
  match s with
  | EmptyString => EmptyString
  | String a s' =>
      match trimEnd s' with
      | EmptyString => if isWhiteSpace a then EmptyString
                       else String a EmptyString
      | t => String a t
      end
  end.

Definition trim (s : string) : string := trimEnd (trimStart s).

(** The empty string is the only falsy string. *)
Definition truthy (s : string) : bool :=
  match s with EmptyString => false | String _ _ => true end.

(** The vertical distance of the highlight button above the selection. *)
Definition BUTTON_OFFSET : Qc := Q2Qc 40.

(** [rects.map(rect => new DOMRect(rect.left - pageRect.left, ...))]. *)
Definition relativeRect (pageRect rect : ClientRect.t) : DOMRect.t :=
  DOMRect.mk (ClientRect.left rect - ClientRect.left pageRect)%Qc
             (ClientRect.top rect - ClientRect.top pageRect)%Qc
             (ClientRect.width rect)
             (ClientRect.height rect).

Definition relativeRects (rects : list ClientRect.t) (pageRect : ClientRect.t)
  : list DOMRect.t :=
  relativeRect pageRect <$> rects.

(** [buttonPosition], from [firstRect = rects[0]]. *)
Definition buttonPosition (firstRect pageRect : ClientRect.t) : Position.t :=
  Position.mk
    (ClientRect.left firstRect - ClientRect.left pageRect)%Qc
    (ClientRect.top firstRect - ClientRect.top pageRect - BUTTON_OFFSET)%Qc.

(** The callback that [handleTextSelection(pageNumber)] hands to
    [setTimeout]. *)
Definition selectionTimer (pageNumber : Z) (w : World) : outcome World :=
  match windowSelection w with
  | None => Returned w
  | Some selection =>
      if isCollapsed selection || bool_decide (rangeCount selection = 0)
      then Returned w
      else
        range ← getRangeAt selection 0;
        let selectedText := trim (toString selection) in
        if negb (truthy selectedText) then Returned w
        else
          let rects := getClientRects range in
          if bool_decide (length rects = 0%nat) then Returned w
          else
            match pageRefs w !! pageNumber with
            | Some (Some pageContainer) =>
                let pageRect := getBoundingClientRect pageContainer in
                match rects with
                | firstRect :: _ =>
                    Returned
                      (setSelectionData
                         (Some (SelectionData.mk
                                  pageNumber
                                  (relativeRects rects pageRect)
                                  selectedText
                                  (buttonPosition firstRect pageRect)))
                         w)
                | [] => Raised "TypeError"
                end
            | _ => Returned w
            end
  end.

(** [handleTextSelection(pageNumber)]: schedule the callback. *)
Definition handleTextSelection (pageNumber : Z) (w : World) : World :=
  mkWorld (view w) (pageRefs w) (windowSelection w)
          (timers w ++ [pageNumber]) (onLoadSuccess w).

(** *** Creating and removing highlights *)

(** [Date.now().toString() + Math.random()]. *)
Definition newId (now : Z) (random : string) : string :=
  pretty now +:+ random.

(** [createHighlight()], with the clock and the random draw it reads. *)
Definition createHighlight (now : Z) (random : string) (w : World) : World :=
  match selectionData (view w) with
  | None => w
  | Some sd =>
      let newHighlight :=
        Highlight.mk (newId now random)
                     (SelectionData.pageNumber sd)
                     (SelectionData.rects sd)
                     (Color.value (selectedColor (view w)))
                     (SelectionData.text sd) in
      let w1 := setHighlights (λ prev, prev ++ [newHighlight]) w in
      let w2 := setSelectionData None w1 in
      mkWorld (view w2) (pageRefs w2)
              (removeAllRanges <$> windowSelection w2)
              (timers w2) (onLoadSuccess w2)
  end.

(** [showDeleteUI(highlightId)]. *)
Definition showDeleteUI (highlightId : string) (w : World) : World :=
  setHighlightToDelete (Some highlightId) w.

(** [confirmRemoveHighlight(highlightId)]. *)
Definition confirmRemoveHighlight (highlightId : string) (w : World) : World :=
  setHighlightToDelete None
    (setHighlights (filter (λ h, Highlight.id h ≠ highlightId)) w).

(** [clearAllHighlights()]. *)
Definition clearAllHighlights (w : World) : World :=
  setHighlightToDelete None (setHighlights (λ _, []) w).

(** The [onClick] of the [Document]: dismiss both affordances. *)
Definition documentClick (w : World) : World :=
  setHighlightToDelete None (setSelectionData None w).

(** [pageHighlights] of [renderHighlights(pageNumber)]: the highlights
    drawn on one page, in store order. *)
Definition pageHighlights (pageNumber : Z) (s : State) : list Highlight.t :=
  filter (λ h, Highlight.pageNumber h = pageNumber) (highlights s).

(** The page numbers the component renders a surface for:
    [Array.from(new Array(numPages), (el, index) => index + 1)], inside
    the branch taken when [error] is [null].  This is the list for the
    states a session reaches, where the page count is not negative and
    an error message is not the empty string; [pageSurfaces], further
    down, has the other cases as well. *)
Definition renderedPages (s : State) : list Z :=
  match error s with
  | Some _ => []
  | None => (λ index, Z.of_nat index + 1) <$> seq 0 (Z.to_nat (numPages s))
  end.

(** ** The component as a transition system *)

(** What can happen to a mounted viewer.  Each constructor names the
    place of the component that reacts to it. *)
Inductive Event : Type :=
| LoadSuccess (n : Z)
    (** [onLoadSuccess] of the [Document] *)
| LoadError
    (** [onLoadError] of the [Document] *)
| MouseUp (pageNumber : Z)
    (** [onMouseUp] of a page container *)
| TimerFires
    (** the oldest pending [setTimeout] callback runs *)
| HighlightButton (now : Z) (random : string)
    (** [onClick] of the floating highlight button *)
| HighlightClick (highlightId : string)
    (** [onClick] of a highlight rectangle *)
| DeleteButton (highlightId : string)
    (** [onClick] of the delete button *)
| ClearAll
    (** [onClick] of the Clear All button *)
| DocumentClick
    (** [onClick] of the [Document] *)
| PickColor (c : Color.t)
    (** [onClick] of a palette button *)
| Browser (sel : option Selection) (refs : gmap Z (option HTMLDivElement)).
    (** the user changes the selection, pages mount, unmount or move *)

(** The oldest timer is removed from the queue and its callback runs; a
    callback that raised would leave the state as it was. *)
Definition fireTimer (w : World) : World :=
  match timers w with
  | [] => w
  | pageNumber :: rest =>
      let w1 := mkWorld (view w) (pageRefs w) (windowSelection w) rest
                        (onLoadSuccess w) in
      match selectionTimer pageNumber w1 with
      | Returned w2 => w2
      | Raised _ => w1
      end
  end.

Definition step (w : World) (e : Event) : World :=
  match e with
  | LoadSuccess n => onDocumentLoadSuccess n w
  | LoadError => onDocumentLoadError w
  | MouseUp pageNumber => handleTextSelection pageNumber w
  | TimerFires => fireTimer w
  | HighlightButton now random => createHighlight now random w
  | HighlightClick highlightId => showDeleteUI highlightId w
  | DeleteButton highlightId => confirmRemoveHighlight highlightId w
  | ClearAll => clearAllHighlights w
  | DocumentClick => documentClick w
  | PickColor c => setSelectedColor c w
  | Browser sel refs =>
      mkWorld (view w) refs sel (timers w) (onLoadSuccess w)
  end.

Definition run (w : World) (evs : list Event) : World := foldl step w evs.

(** The ids of the stored highlights, in store order. *)
Definition storeIds (w : World) : list string :=
  Highlight.id <$> highlights (view w).

(** The id an event gives to a new highlight, if it creates one. *)
Definition mintedBy (w : World) (e : Event) : list string :=
  match e, selectionData (view w) with
  | HighlightButton now random, Some _ => [newId now random]
  | _, _ => []
  end.

(** The ids given out along a run, oldest first. *)
Fixpoint minted (w : World) (evs : list Event) : list string :=
  match evs with
  | [] => []
  | e :: evs' => mintedBy w e ++ minted (step w e) evs'
  end.

(** The clock value and the random text an event reads, if it creates a
    highlight. *)
Definition drawnBy (w : World) (e : Event) : list (Z * string) :=
  match e, selectionData (view w) with
  | HighlightButton now random, Some _ => [(now, random)]
  | _, _ => []
  end.

(** The clock values and random texts read along a run by the commits
    that created a highlight, oldest first. *)
Fixpoint draws (w : World) (evs : list Event) : list (Z * string) :=
  match evs with
  | [] => []
  | e :: evs' => drawnBy w e ++ draws (step w e) evs'
  end.

Definition isDigit (a : Ascii.ascii) : bool :=
  let n := Ascii.nat_of_ascii a in (48 <=? n)%nat && (n <=? 57)%nat.

Fixpoint allDigits (s : string) : bool :=
  match s with
  | EmptyString => true
  | String a s' => isDigit a && allDigits s'
  end.

(** The texts string concatenation can make of [Math.random()], a
    number from 0 up to but not including 1: the text 0, or one digit
    followed by a character that is not a digit (the point of 0.5 and
    of 1.5e-7, the e of 1e-7). *)
Definition mathRandomText (random : string) : bool :=
  match random with
  | EmptyString => false
  | String d EmptyString => Ascii.eqb d (Ascii.ascii_of_nat 48)
  | String d (String c _) => isDigit d && negb (isDigit c)
  end.

(** [along P w evs]: [P] holds of every event of the run, in the world
    the event finds. *)
Fixpoint along (P : World → Event → Prop) (w : World) (evs : list Event)
  : Prop :=
  match evs with
  | [] => True
  | e :: evs' => P w e ∧ along P (step w e) evs'
  end.

(** A mouse-up comes from a page container that is rendered. *)
Definition fromRenderedPage (w : World) (e : Event) : Prop :=
  match e with
  | MouseUp pageNumber => pageNumber ∈ renderedPages (view w)
  | _ => True
  end.

(** A successful load does not report fewer pages than are shown. *)
Definition keepsPageCount (w : World) (e : Event) : Prop :=
  match e with
  | LoadSuccess n => numPages (view w) ≤ n
  | _ => True
  end.

(** Every stored highlight and the pending selection, if any, sit on a
    page between 1 and the page count. *)
Definition pagesInRange (s : State) : Prop :=
  Forall (λ h, 1 ≤ Highlight.pageNumber h ≤ numPages s) (highlights s)
  ∧ ∀ sd, selectionData s = Some sd →
          1 ≤ SelectionData.pageNumber sd ≤ numPages s.

(** The invariant of a session whose page count does not go down: the
    store, the pending selection and the scheduled captures all refer to
    pages between 1 and the page count. *)
Definition pagesKnown (w : World) : Prop :=
  pagesInRange (view w)
  ∧ Forall (λ p, 1 ≤ p ≤ numPages (view w)) (timers w).

(** Modelled from the spec: the inverse step of the round-trip property,
    which has no counterpart in the component: the page offset is added
    back to a page-relative rectangle. *)
Definition reAddOffset (pageRect : ClientRect.t) (r : DOMRect.t)
  : ClientRect.t :=
  ClientRect.mk (DOMRect.x r + ClientRect.left pageRect)%Qc
                (DOMRect.y r + ClientRect.top pageRect)%Qc
                (DOMRect.width r)
                (DOMRect.height r).

(** *** The rectangle arithmetic in binary64

    The coordinates the browser hands over are JavaScript numbers.
    [Binary64] has lines 126 to 134 again, and the inverse step, with
    the subtraction and the addition of binary64, for the properties
    that depend on rounding. *)
Module Binary64.

Module ClientRect.
Record t : Type := mk {
  left : float;
  top : float;
  width : float;
  height : float
}.
End ClientRect.

Module DOMRect.
Record t : Type := mk {
  x : float;
  y : float;
  width : float;
  height : float
}.
End DOMRect.

(** [{ x: rect.left - pageRect.left, y: rect.top - pageRect.top,
       width: rect.width, height: rect.height }]. *)
Definition relativeRect (pageRect rect : ClientRect.t) : DOMRect.t :=
  DOMRect.mk (ClientRect.left rect - ClientRect.left pageRect)%float
             (ClientRect.top rect - ClientRect.top pageRect)%float
             (ClientRect.width rect)
             (ClientRect.height rect).

(** [Array.from(rects).map(rect => ...)]. *)
Definition relativeRects (rects : list ClientRect.t)
  (pageRect : ClientRect.t) : list DOMRect.t :=
  relativeRect pageRect <$> rects.

(** Modelled from the spec: the inverse step, as [reAddOffset] above. *)
Definition reAddOffset (pageRect : ClientRect.t) (r : DOMRect.t)
  : ClientRect.t :=
  ClientRect.mk (DOMRect.x r + ClientRect.left pageRect)%float
                (DOMRect.y r + ClientRect.top pageRect)%float
                (DOMRect.width r)
                (DOMRect.height r).

(** What taking the offset off and adding it back makes of a client
    rectangle. *)
Definition reAdded (pageRect rect : ClientRect.t) : ClientRect.t :=
  ClientRect.mk
    (ClientRect.left rect - ClientRect.left pageRect
     + ClientRect.left pageRect)%float
    (ClientRect.top rect - ClientRect.top pageRect
     + ClientRect.top pageRect)%float
    (ClientRect.width rect)
    (ClientRect.height rect).

End Binary64.

(** ** Sample data *)

Definition q (n : Z) : Qc := Q2Qc (inject_Z n).

(** Two client rectangles on a page whose box starts at (500, 1200). *)
Definition sampleRects : list ClientRect.t :=
  [ ClientRect.mk (q 100) (q 50) (q 80) (q 20);
    ClientRect.mk (q 20) (q 72) (q 200) (q 20) ].

Definition samplePage : HTMLDivElement :=
  mkDiv (ClientRect.mk (q 500) (q 1200) (q 700) (q 990)).

Definition sampleSelection : Selection :=
  mkSelection false [mkRange sampleRects] "  selected text ".

Definition sampleRefs : gmap Z (option HTMLDivElement) :=
  <[3 := Some samplePage]> (<[2 := Some samplePage]> (<[1 := None]> ∅)).

(** A three-page document is shown, text is selected on page 2 and the
    capture timer fires. *)
Definition captureRun : list Event :=
  [LoadSuccess 3; Browser (Some sampleSelection) sampleRefs;
   MouseUp 2; TimerFires].

Definition capturedWorld : World := run (mount None) captureRun.

(** Then the selection is committed and the highlight is armed for
    deletion; new text is selected on page 3 and captured. *)
Definition busyRun : list Event :=
  captureRun
  ++ [HighlightButton 1700000000000 "0.5"; HighlightClick "17000000000000.5";
      Browser (Some sampleSelection) sampleRefs; MouseUp 3; TimerFires].

Definition busyWorld : World := run (mount None) busyRun.

(** Then the second selection is committed while the clock shows the
    same millisecond and the random draw repeats. *)
Definition collisionRun : list Event :=
  busyRun ++ [HighlightButton 1700000000000 "0.5"].

Definition collidingWorld : World := run (mount None) collisionRun.

(** Or else it is committed a millisecond later with another draw. *)
Definition distinctRun : list Event :=
  busyRun ++ [HighlightButton 1700000000001 "0.25"].

(** Or else a one-page document is loaded into the busy viewer. *)
Definition reloadRun : list Event := busyRun ++ [LoadSuccess 1].

(** The numbers that the literals 0.9 and 0.3 denote in JavaScript. *)
Definition number_0_9 : float := 0x1.ccccccccccccdp-1%float.
Definition number_0_3 : float := 0x1.3333333333333p-2%float.

(** A client rectangle at (0.9, 0.9) on a page whose box starts at
    (0.3, 0.3). *)
Definition fractionalRect : Binary64.ClientRect.t :=
  Binary64.ClientRect.mk number_0_9 number_0_9 80 20.

Definition fractionalPage : Binary64.ClientRect.t :=
  Binary64.ClientRect.mk number_0_3 number_0_3 700 990.

(** The same with whole numbers. *)
Definition wholeRect : Binary64.ClientRect.t :=
  Binary64.ClientRect.mk 600 1250 80 20.

Definition wholePage : Binary64.ClientRect.t :=
  Binary64.ClientRect.mk 500 1200 700 990.

(** ** What the component draws *)

(** A rectangle of the overlay of one page, as [renderHighlights] draws
    it: the React key [`${highlight.id}-${rectIndex}`], the id its
    [onClick] passes to [showDeleteUI], its place and its fill. *)
Record HighlightDiv : Type := mkHighlightDiv {
  divKey : string;
  divHighlightId : string;
  divRect : DOMRect.t;
  divColor : string
}.

(** [pageHighlights.map(highlight => highlight.rects.map(...))]. *)
Definition highlightDivs (pageNumber : Z) (s : State) : list HighlightDiv :=
  highlight ← pageHighlights pageNumber s;
  imap (λ rectIndex rect,
          mkHighlightDiv
            (Highlight.id highlight +:+ "-" +:+ pretty rectIndex)
            (Highlight.id highlight) rect (Highlight.color highlight))
       (Highlight.rects highlight).

(** [pageHighlights.find(h => h.id === highlightToDelete)]. *)
Definition findById (i : string) (hs : list Highlight.t)
  : option Highlight.t :=
  snd <$> list_find (λ h, Highlight.id h = i) hs.

(** The delete button of [renderHighlights(pageNumber)]: where it is
    placed and the id its [onClick] passes to
    [confirmRemoveHighlight]. *)
Record DeleteIcon : Type := mkDeleteIcon {
  iconLeft : Qc;
  iconTop : Qc;
  iconTarget : string
}.

Definition deleteIcon (pageNumber : Z) (s : State) : option DeleteIcon :=
  match highlightToDelete s with
  | None => None
  | Some armed =>
      if truthy armed then
        match findById armed (pageHighlights pageNumber s) with
        | None => None
        | Some highlight =>
            match Highlight.rects highlight with
            | [] => None
            | r :: _ =>
                Some (mkDeleteIcon
                        (DOMRect.x r + DOMRect.width r / Q2Qc 2 - Q2Qc 20)%Qc
                        (DOMRect.y r - Q2Qc 45)%Qc
                        (Highlight.id highlight))
            end
        end
      else None
  end.

(** The floating highlight button of a page: drawn at
    [selectionData.position] when
    [selectionData && selectionData.pageNumber === index + 1]. *)
Definition highlightButton (pageNumber : Z) (s : State)
  : option Position.t :=
  match selectionData s with
  | Some sd =>
      if bool_decide (SelectionData.pageNumber sd = pageNumber)
      then Some (SelectionData.position sd)
      else None
  | None => None
  end.

(** [disabled={highlights.length === 0}] of the Clear All button. *)
Definition clearAllDisabled (s : State) : bool :=
  bool_decide (length (highlights s) = 0%nat).

(** The page surfaces of one render, in every state: an empty error
    message is falsy, so [error ? ... : ...] draws the document for it
    as for [null]; [new Array(numPages)] raises a [RangeError] for a
    length below zero or above 2^32 - 1. *)
Definition pageSurfaces (s : State) : outcome (list Z) :=
  let errorShown :=
    match error s with
    | Some message => truthy message
    | None => false
    end in
  if errorShown then Returned []
  else if (numPages s <? 0) || (2 ^ 32 - 1 <? numPages s)
       then Raised "RangeError"
       else Returned ((λ index, Z.of_nat index + 1)
                        <$> seq 0 (Z.to_nat (numPages s))).

(** [clickable w e]: the element whose handler reacts to [e] is drawn
    and enabled in [w].  The [Document], with its pages, overlays and
    buttons, is drawn only while [error] is [null]; the toolbar always
    is.  Timers and the browser need no element. *)
Definition clickable (w : World) (e : Event) : Prop :=
  match e with
  | LoadSuccess _ | LoadError | DocumentClick => error (view w) = None
  | MouseUp pageNumber => pageNumber ∈ renderedPages (view w)
  | TimerFires => True
  | HighlightButton _ _ =>
      ∃ p, p ∈ renderedPages (view w) ∧ is_Some (highlightButton p (view w))
  | HighlightClick highlightId =>
      ∃ p d, p ∈ renderedPages (view w)
             ∧ d ∈ highlightDivs p (view w)
             ∧ divHighlightId d = highlightId
  | DeleteButton highlightId =>
      ∃ p icon, p ∈ renderedPages (view w)
                ∧ deleteIcon p (view w) = Some icon
                ∧ iconTarget icon = highlightId
  | ClearAll => clearAllDisabled (view w) = false
  | PickColor c => c ∈ HIGHLIGHT_COLORS
  | Browser _ _ => True
  end.

(** What every stored highlight and pending selection of a session
    looks like: at least one rectangle, a text that is not empty. *)
Definition captured (rects : list DOMRect.t) (text : string) : Prop :=
  rects ≠ [] ∧ text ≠ "".

Definition contentCaptured (s : State) : Prop :=
  Forall (λ h, captured (Highlight.rects h) (Highlight.text h)
               ∧ Highlight.id h ≠ "")
         (highlights s)
  ∧ ∀ sd, selectionData s = Some sd →
          captured (SelectionData.rects sd) (SelectionData.text sd).

(** The colours in use are those of the palette. *)
Definition paletteOnly (s : State) : Prop :=
  selectedColor s ∈ HIGHLIGHT_COLORS
  ∧ Forall (λ h, Highlight.color h ∈ Color.value <$> HIGHLIGHT_COLORS)
           (highlights s).


(** A second highlight, to try arming and removal on. *)
Definition twoHighlightsWorld : World := run (mount None) distinctRun.

(** ** File validation and upload *)

(** The properties of a [File] that the validator reads. *)
Record File : Type := mkFile {
  fileName : string;
  fileType : string;
  fileSize : N
}.

Definition MAX_FILE_SIZE : N := 1 * 1024 * 1024.

Definition ALLOWED_MIME_TYPE : string := "application/pdf".

(** [interface ValidationResult]. *)
Module ValidationResult.
Record t : Type := mk { valid : bool; error : option string }.
End ValidationResult.

(** [String.prototype.toLowerCase] on the code units below 256: the
    letters A to Z and the capital letters of Latin-1 (192 to 222, less
    the multiplication sign 215) move up by 32. *)
Definition toLowerCaseChar (a : Ascii.ascii) : Ascii.ascii :=
  let n := Ascii.nat_of_ascii a in
  if ((65 <=? n) && (n <=? 90)
      || (192 <=? n) && (n <=? 222) && negb (n =? 215))%nat
  then Ascii.ascii_of_nat (n + 32)
  else a.

Fixpoint toLowerCase (s : string) : string :=
  match s with
  | EmptyString => EmptyString
  | String a s' => String (toLowerCaseChar a) (toLowerCase s')
  end.

(** [s.endsWith(suffix)]: some tail of [s] is [suffix]. *)
Fixpoint endsWith (s suffix : string) : bool :=
  String.eqb s suffix
  || match s with
     | EmptyString => false
     | String _ s' => endsWith s' suffix
     end.

(** [validatePDFFile(file)]. *)
Definition validatePDFFile (file : File) : ValidationResult.t :=
  if negb (String.eqb (fileType file) ALLOWED_MIME_TYPE) then
    ValidationResult.mk false (Some "Only PDF files are allowed")
  else if negb (endsWith (toLowerCase (fileName file)) ".pdf") then
    ValidationResult.mk false (Some "File must have .pdf extension")
  else if (MAX_FILE_SIZE <? fileSize file)%N then
    ValidationResult.mk false
      (Some ("File size must be less than "
             +:+ pretty (MAX_FILE_SIZE / 1024 / 1024)%N +:+ "MB"))
  else if (fileSize file =? 0)%N then
    ValidationResult.mk false (Some "File is empty")
  else ValidationResult.mk true None.

(** The class [[a-zA-Z0-9._-]] of [sanitizeFilename]. *)
Definition isSafeChar (a : Ascii.ascii) : bool :=
  let n := Ascii.nat_of_ascii a in
  ((97 <=? n) && (n <=? 122) || (65 <=? n) && (n <=? 90)
   || (48 <=? n) && (n <=? 57)
   || (n =? 46) || (n =? 95) || (n =? 45))%nat.

(** [filename.replace(/[^a-zA-Z0-9._-]/g, '_')]. *)
Fixpoint sanitizeFilename (filename : string) : string :=
  match filename with
  | EmptyString => EmptyString
  | String a rest =>
      String (if isSafeChar a then a else Ascii.ascii_of_nat 95)
             (sanitizeFilename rest)
  end.

(** The [PDFUploader] component: its two state cells and the files its
    [onFileUpload] prop was called with so far. *)
Record Uploader : Type := mkUploader {
  dragActive : bool;
  uploaderError : option string;
  onFileUpload : list File
}.

(** [handleDrag(e)], with [e.type]. *)
Definition handleDrag (type : string) (u : Uploader) : Uploader :=
  if String.eqb type "dragenter" || String.eqb type "dragover" then
    mkUploader true (uploaderError u) (onFileUpload u)
  else if String.eqb type "dragleave" then
    mkUploader false (uploaderError u) (onFileUpload u)
  else u.

(** [validation.error || 'Invalid file']. *)
Definition errorOrDefault (e : option string) : string :=
  match e with
  | Some msg => if truthy msg then msg else "Invalid file"
  | None => "Invalid file"
  end.

(** [handleDrop(e)], with [e.dataTransfer.files]. *)
Definition handleDrop (files : option (list File)) (u : Uploader) : Uploader :=
  let u1 := mkUploader false None (onFileUpload u) in
  match files with
  | Some (file :: _) =>
      let validation := validatePDFFile file in
      if negb (ValidationResult.valid validation) then
        mkUploader (dragActive u1)
                   (Some (errorOrDefault (ValidationResult.error validation)))
                   (onFileUpload u1)
      else mkUploader (dragActive u1) (uploaderError u1)
                      (onFileUpload u1 ++ [file])
  | _ => u1
  end.

(** [handleChange(e)], with [e.target.files]. *)
Definition handleChange (files : option (list File)) (u : Uploader)
  : Uploader :=
  let u1 := mkUploader (dragActive u) None (onFileUpload u) in
  match files with
  | Some (file :: _) =>
      let validation := validatePDFFile file in
      if negb (ValidationResult.valid validation) then
        mkUploader (dragActive u1)
                   (Some (errorOrDefault (ValidationResult.error validation)))
                   (onFileUpload u1)
      else mkUploader (dragActive u1) (uploaderError u1)
                      (onFileUpload u1 ++ [file])
  | _ => u1
  end.

(** The messages a rejected file can be shown with. *)
Definition rejectionMessages : list string :=
  [ "Only PDF files are allowed"; "File must have .pdf extension";
    "File size must be less than 1MB"; "File is empty" ].

Definition samplePdf : File := mkFile "Thesis.PDF" "application/pdf" 1048576.

(** ** The chat box, the application and the requests *)

(** The [ChatBox] component: its input and the questions its
    [onSendMessage] prop was called with so far. *)
Record ChatBox : Type := mkChatBox {
  input : string;
  onSendMessage : list string
}.

(** [handleSubmit(e)], with the props [isLoading] and [disabled]. *)
Definition handleSubmit (isLoading disabled : bool) (c : ChatBox) : ChatBox :=
  if truthy (trim (input c)) && negb isLoading && negb disabled then
    mkChatBox "" (onSendMessage c ++ [trim (input c)])
  else c.

(** [interface PDFDocument]; a [Date] is its time in milliseconds. *)
Module PDFDocument.
Record t : Type := mk {
  id : string;
  filename : string;
  uploadedAt : Z;
  pageCount : option Z
}.
End PDFDocument.

Inductive Role : Type := user | assistant.

(** [interface Message]. *)
Module Message.
Record t : Type := mk {
  id : string;
  role : Role;
  content : string;
  timestamp : Z
}.
End Message.

(** [interface RateLimitInfo]. *)
Module RateLimitInfo.
Record t : Type := mk { questionsRemaining : Z; resetTime : Z }.
End RateLimitInfo.

(** [interface UploadResponse]. *)
Module UploadResponse.
Record t : Type := mk {
  success : bool;
  documentId : string;
  filename : string;
  pageCount : Z;
  message : string
}.
End UploadResponse.

(** [interface ChatResponse]. *)
Module ChatResponse.
Record t : Type := mk { answer : string; rateLimitInfo : RateLimitInfo.t }.
End ChatResponse.

(** The body that [askQuestion] posts to [/chat]. *)
Module ChatRequest.
Record t : Type := mk { document_id : string; question : string }.
End ChatRequest.

(** [askQuestion(documentId, question)], up to the request it sends. *)
Definition askQuestion (documentId question : string) : ChatRequest.t :=
  ChatRequest.mk documentId (trim question).

(** The [useState] cells of [App]. *)
Module App.
Record t : Type := mk {
  document : option PDFDocument.t;
  fileUrl : option string;
  messages : list Message.t;
  isUploading : bool;
  isAsking : bool;
  rateLimitInfo : option RateLimitInfo.t;
  error : option string;
  isDarkMode : bool
}.
End App.

(** [handleFileUpload(file)] before [await uploadPDF(file)]. *)
Definition handleFileUpload_begin (a : App.t) : App.t :=
  App.mk (App.document a) (App.fileUrl a) (App.messages a) true
         (App.isAsking a) (App.rateLimitInfo a) None (App.isDarkMode a).

(** The double quote of the template of the success message. *)
Definition quote : string := String (Ascii.ascii_of_nat 34) "".

(** [handleFileUpload(file)] once the upload has answered: the clock is
    read for [uploadedAt], for the id and for the timestamp of the
    message; [url] is what [URL.createObjectURL(file)] returns. *)
Definition handleFileUpload_resolved
  (response : UploadResponse.t) (uploadedAt now timestamp : Z) (url : string)
  (a : App.t) : App.t :=
  let newDoc :=
    PDFDocument.mk (UploadResponse.documentId response)
                   (UploadResponse.filename response)
                   uploadedAt
                   (Some (UploadResponse.pageCount response)) in
  let successMessage :=
    Message.mk (pretty now) assistant
               ("Successfully loaded " +:+ quote
                +:+ UploadResponse.filename response +:+ quote
                +:+ ". You can now ask questions about this document!")
               timestamp in
  App.mk (Some newDoc) (Some url) [successMessage] false
         (App.isAsking a) (App.rateLimitInfo a) (App.error a)
         (App.isDarkMode a).

(** [handleFileUpload(file)] when the upload failed; [err] is the
    message of the error when it is an [Error]. *)
Definition handleFileUpload_rejected (err : option string) (a : App.t)
  : App.t :=
  App.mk (App.document a) (App.fileUrl a) (App.messages a) false
         (App.isAsking a) (App.rateLimitInfo a)
         (Some (default "Failed to upload PDF" err)) (App.isDarkMode a).

(** [handleSendMessage(question)] before [await askQuestion(...)],
    with the request it sends if it sends one. *)
Definition handleSendMessage_begin
  (question : string) (now timestamp : Z) (a : App.t)
  : App.t * option ChatRequest.t :=
  match App.document a with
  | None => (a, None)
  | Some doc =>
      let userMessage := Message.mk (pretty now) user question timestamp in
      (App.mk (App.document a) (App.fileUrl a)
              (App.messages a ++ [userMessage]) (App.isUploading a) true
              (App.rateLimitInfo a) None (App.isDarkMode a),
       Some (askQuestion (PDFDocument.id doc) question))
  end.

(** [handleSendMessage(question)] once the answer has come. *)
Definition handleSendMessage_resolved
  (response : ChatResponse.t) (now timestamp : Z) (a : App.t) : App.t :=
  let assistantMessage :=
    Message.mk (pretty (now + 1)) assistant (ChatResponse.answer response)
               timestamp in
  App.mk (App.document a) (App.fileUrl a)
         (App.messages a ++ [assistantMessage]) (App.isUploading a) false
         (Some (ChatResponse.rateLimitInfo response)) (App.error a)
         (App.isDarkMode a).

(** [handleSendMessage(question)] when the request failed. *)
Definition handleSendMessage_rejected
  (err : option string) (now timestamp : Z) (a : App.t) : App.t :=
  let errorMessage :=
    Message.mk (pretty (now + 1)) assistant
      "Sorry, I encountered an error processing your question. Please try again."
      timestamp in
  App.mk (App.document a) (App.fileUrl a)
         (App.messages a ++ [errorMessage]) (App.isUploading a) false
         (App.rateLimitInfo a) (Some (default "Failed to get answer" err))
         (App.isDarkMode a).

(** The [onClick] of "Upload Different PDF". *)
Definition uploadDifferentPDF (a : App.t) : App.t :=
  App.mk None None [] (App.isUploading a) (App.isAsking a) None
         (App.error a) (App.isDarkMode a).

(** [!document]: the upload view is drawn in place of the viewer and
    the chat. *)
Definition showsUploader (a : App.t) : bool :=
  match App.document a with None => true | Some _ => false end.

(** [fileUrl && <PDFViewer fileUrl={fileUrl} />] in the other branch. *)
Definition showsViewer (a : App.t) : bool :=
  negb (showsUploader a)
  && match App.fileUrl a with Some url => truthy url | None => false end.

(** [disabled={rateLimitInfo?.questionsRemaining === 0}]. *)
Definition chatDisabled (a : App.t) : bool :=
  match App.rateLimitInfo a with
  | Some info => bool_decide (RateLimitInfo.questionsRemaining info = 0)
  | None => false
  end.

(** What [RateLimitIndicator] draws: the count, the width of the bar in
    per cent (a binary64 number, as the code computes it), the colour of
    both and whether the text says that the limit is reached. *)
Inductive StatusColor : Type := red | orange | green.

Record Indicator : Type := mkIndicator {
  shownCount : Z;
  barWidth : float;
  statusColor : StatusColor;
  limitReached : bool
}.

(** A whole number as a JavaScript number: the nearest binary64. *)
Definition Z2float (z : Z) : float :=
  SF2Prim (binary_normalize prec emax z 0 false).

(** [(rateLimitInfo.questionsRemaining / 40) * 100]. *)
Definition percentage (questionsRemaining : Z) : float :=
  (Z2float questionsRemaining / 40 * 100)%float.

(** A width the bar can show: from 0 to 100 per cent. *)
Definition withinBar (width : float) : bool :=
  PrimFloat.leb 0 width && PrimFloat.leb width 100.

(** [RateLimitIndicator({ rateLimitInfo })]. *)
Definition rateLimitIndicator (rateLimitInfo : option RateLimitInfo.t)
  : option Indicator :=
  match rateLimitInfo with
  | None => None
  | Some info =>
      let remaining := RateLimitInfo.questionsRemaining info in
      let percentage := percentage remaining in
      let isLow := bool_decide (remaining ≤ 10) in
      let isCritical := bool_decide (remaining = 0) in
      Some (mkIndicator remaining percentage
                        (if isCritical then red
                         else if isLow then orange else green)
                        isCritical)
  end.

Definition sampleApp : App.t :=
  App.mk (Some (PDFDocument.mk "doc-1" "thesis.pdf" 1700000000000 (Some 3)))
         (Some "blob:thesis") [] false false None None false.

(** ** Helper lemmas *)

Lemma defaultColor_first : HIGHLIGHT_COLORS !! 0%nat = Some defaultColor.
Proof. reflexivity. Qed.

Lemma trim_sample : trim "  selected text " = "selected text".
Proof. reflexivity. Qed.

Lemma trim_blank :
  trim (String (Ascii.ascii_of_nat 9) (String (Ascii.ascii_of_nat 10) "  "))
  = "".
Proof. reflexivity. Qed.

(** The capture callback has two results only: the world it was given,
    or that world with a pending selection on the page it was scheduled
    for.  It never raises. *)
Lemma selectionTimer_cases (pageNumber : Z) (w : World) :
  selectionTimer pageNumber w = Returned w
  ∨ ∃ sd, selectionTimer pageNumber w
          = Returned (setSelectionData (Some sd) w)
          ∧ SelectionData.pageNumber sd = pageNumber.
Proof.
  unfold selectionTimer.
  destruct (windowSelection w) as [selection|]; [|by left].
  destruct (isCollapsed selection); [by left|]. simpl.
  case_bool_decide as Hcount; [by left|].
  unfold getRangeAt, rangeCount in *.
  destruct (ranges selection) as [|range others]; [done|]. simpl.
  destruct (truthy (trim (toString selection))); [|by left]. simpl.
  case_bool_decide as Hrects; [by left|].
  destruct (pageRefs w !! pageNumber) as [[pageContainer|]|]; try by left.
  destruct (getClientRects range) as [|firstRect rest]; [done|].
  right. eexists. split; [reflexivity|done].
Qed.

Lemma fireTimer_cases (w : World) :
  (view (fireTimer w) = view w
   ∨ ∃ pageNumber sd,
       pageNumber ∈ timers w
       ∧ SelectionData.pageNumber sd = pageNumber
       ∧ view (fireTimer w) = view (setSelectionData (Some sd) w))
  ∧ timers (fireTimer w) = tail (timers w).
Proof.
  unfold fireTimer. destruct (timers w) as [|pageNumber rest] eqn:Hq.
  { split; [by left|done]. }
  match goal with |- context [selectionTimer _ ?w1] =>
    destruct (selectionTimer_cases pageNumber w1) as [->|(sd & -> & Hsd)]
  end; simpl.
  - split; [by left|done].
  - split; [|done]. right. exists pageNumber, sd.
    split; [apply list_elem_of_here|]. by split.
Qed.

Lemma fireTimer_highlights (w : World) :
  highlights (view (fireTimer w)) = highlights (view w).
Proof.
  destruct (fireTimer_cases w) as [[->|(p & sd & _ & _ & ->)] _]; done.
Qed.

Lemma renderedPages_range (s : State) (pageNumber : Z) :
  pageNumber ∈ renderedPages s → 1 ≤ pageNumber ≤ numPages s.
Proof.
  unfold renderedPages. destruct (error s); [by intros ?%elem_of_nil|].
  intros (index & -> & Hin%elem_of_seq)%list_elem_of_fmap. lia.
Qed.

Lemma filter_id_absent (hs : list Highlight.t) (i : string) :
  i ∉ Highlight.id <$> hs →
  filter (λ h, Highlight.id h ≠ i) hs = hs.
Proof.
  induction hs as [|h hs IH]; [done|]. simpl.
  intros [Hne Hnot]%not_elem_of_cons.
  rewrite filter_cons_True; [|congruence]. by rewrite IH.
Qed.

Lemma filter_id_present (hs : list Highlight.t) (i : string) :
  NoDup (Highlight.id <$> hs) →
  i ∈ Highlight.id <$> hs →
  S (length (filter (λ h, Highlight.id h ≠ i) hs)) = length hs.
Proof.
  induction hs as [|h hs IH]; simpl.
  { by intros _ ?%elem_of_nil. }
  intros [Hfresh Hnd]%NoDup_cons [Heq|Hin]%elem_of_cons.
  - subst i. rewrite filter_cons_False; [|by intros []].
    by rewrite filter_id_absent.
  - rewrite filter_cons_True; [|intros <-; exact (Hfresh Hin)].
    simpl. by rewrite IH.
Qed.

(** ** Clear-all and document load *)

(** C1, as stated, fails: with a highlight stored and armed and a
    selection pending, clear-all leaves the pending selection. *)
Lemma clearAll_keeps_pending_selection :
  ¬ ((∀ p, pageHighlights p (view (clearAllHighlights busyWorld)) = [])
     ∧ highlightToDelete (view (clearAllHighlights busyWorld)) = None
     ∧ selectionData (view (clearAllHighlights busyWorld)) = None).
Proof. intros (_ & _ & Hsel). vm_compute in Hsel. discriminate. Qed.

(** C1, amended: for every state, [clearAllHighlights] empties the store
    (no page has a highlight left) and disarms the armed highlight; the
    pending selection and every other piece of state stay as they were. *)
Theorem clearAllHighlights_effect (w : World) :
  let w' := clearAllHighlights w in
  (∀ p, pageHighlights p (view w') = [])
  ∧ highlights (view w') = []
  ∧ highlightToDelete (view w') = None
  ∧ selectionData (view w') = selectionData (view w)
  ∧ selectedColor (view w') = selectedColor (view w)
  ∧ numPages (view w') = numPages (view w)
  ∧ error (view w') = error (view w)
  ∧ windowSelection w' = windowSelection w
  ∧ timers w' = timers w.
Proof. by destruct w as [[] ? ? ? ?]. Qed.

(** C2, as stated, fails: a successful load of a one-page document over
    a viewer that holds a highlight, an armed highlight and a pending
    selection resets none of the three. *)
Lemma load_keeps_overlay_state :
  ¬ (highlights (view (onDocumentLoadSuccess 1 busyWorld)) = []
     ∧ selectionData (view (onDocumentLoadSuccess 1 busyWorld)) = None
     ∧ highlightToDelete (view (onDocumentLoadSuccess 1 busyWorld)) = None).
Proof. intros (Hstore & _ & _). vm_compute in Hstore. discriminate. Qed.

(** C2, amended: for every prior state, [onDocumentLoadSuccess] records
    the new page count, clears the load error and notifies the parent if
    it asked for it; the highlights, the pending selection, the armed
    highlight and the active colour are left as they were. *)
Theorem onDocumentLoadSuccess_effect (n : Z) (w : World) :
  let w' := onDocumentLoadSuccess n w in
  numPages (view w') = n
  ∧ error (view w') = None
  ∧ highlights (view w') = highlights (view w)
  ∧ selectionData (view w') = selectionData (view w)
  ∧ highlightToDelete (view w') = highlightToDelete (view w)
  ∧ selectedColor (view w') = selectedColor (view w)
  ∧ onLoadSuccess w' = (λ log, log ++ [n]) <$> onLoadSuccess w.
Proof. by destruct w as [[] ? ? ? ?]. Qed.

(** ** Commit *)

(** C4: with a selection pending, [createHighlight] appends one
    highlight at the end of the store, built from the pending selection
    and the active colour; the highlights stored before keep their
    places; the pending selection and the browser's selection are
    cleared. *)
Theorem createHighlight_pending
  (now : Z) (random : string) (w : World) (sd : SelectionData.t) :
  selectionData (view w) = Some sd →
  let w' := createHighlight now random w in
  highlights (view w')
  = highlights (view w)
    ++ [Highlight.mk (newId now random)
                     (SelectionData.pageNumber sd)
                     (SelectionData.rects sd)
                     (Color.value (selectedColor (view w)))
                     (SelectionData.text sd)]
  ∧ length (highlights (view w')) = S (length (highlights (view w)))
  ∧ (∀ i h, highlights (view w) !! i = Some h →
            highlights (view w') !! i = Some h)
  ∧ selectionData (view w') = None
  ∧ windowSelection w' = removeAllRanges <$> windowSelection w
  ∧ (∀ s, windowSelection w' = Some s →
          ranges s = [] ∧ isCollapsed s = true ∧ toString s = "")
  ∧ highlightToDelete (view w') = highlightToDelete (view w)
  ∧ selectedColor (view w') = selectedColor (view w)
  ∧ numPages (view w') = numPages (view w).
Proof.
  intros Hsd w'. subst w'. unfold createHighlight. rewrite Hsd.
  destruct w as [[n e hs c d a] refs sel ts ol]; simpl in *.
  split_and!; try done.
  - rewrite length_app. simpl. lia.
  - intros i h Hi. by apply lookup_app_l_Some.
  - intros s Hs. destruct sel as [s0|]; [|done].
    by injection Hs as <-.
Qed.

Lemma createHighlight_pending_witness :
  selectionData (view capturedWorld) ≠ None
  ∧ length (highlights (view (createHighlight 1700000000000 "0.5"
                                              capturedWorld))) = 1%nat
  ∧ selectionData (view (createHighlight 1700000000000 "0.5"
                                         capturedWorld)) = None.
Proof.
  destruct (selectionData (view capturedWorld)) as [sd|] eqn:Hsd;
    [|vm_compute in Hsd; discriminate].
  split; [done|].
  destruct (createHighlight_pending 1700000000000 "0.5" capturedWorld sd Hsd)
    as (_ & Hlen & _ & Hnone & _).
  split; [exact Hlen | exact Hnone].
Defined.

(** C10: without a pending selection, [createHighlight] returns at once:
    the store, the pending selection, the armed highlight and the
    browser's selection are what they were. *)
Theorem createHighlight_idle (now : Z) (random : string) (w : World) :
  selectionData (view w) = None →
  createHighlight now random w = w.
Proof. intros Hnone. unfold createHighlight. by rewrite Hnone. Qed.

Lemma createHighlight_idle_witness :
  createHighlight 1700000000000 "0.5" (mount None) = mount None.
Proof. apply createHighlight_idle. reflexivity. Defined.

(** ** Geometry *)

(** C5: the transformer keeps the number and the order of the
    rectangles; each result has the input's left and top less the page
    box's left and top, and the input's width and height; the anchor is
    the first rectangle's left and top less the page box's, 40 higher;
    and a capture of a valid selection returns with that anchor
    whatever its sign. *)
Theorem geometry_transformer
  (rects : list ClientRect.t) (pageRect : ClientRect.t) :
  length (relativeRects rects pageRect) = length rects
  ∧ (∀ i : nat,
       relativeRects rects pageRect !! i
       = (λ r, DOMRect.mk
                 (ClientRect.left r - ClientRect.left pageRect)%Qc
                 (ClientRect.top r - ClientRect.top pageRect)%Qc
                 (ClientRect.width r) (ClientRect.height r))
           <$> rects !! i)
  ∧ (∀ firstRect,
       buttonPosition firstRect pageRect
       = Position.mk
           (ClientRect.left firstRect - ClientRect.left pageRect)%Qc
           (ClientRect.top firstRect - ClientRect.top pageRect - Q2Qc 40)%Qc)
  ∧ (∀ pageNumber w selection range firstRect rest pageContainer,
       windowSelection w = Some selection →
       isCollapsed selection = false →
       ranges selection !! 0%nat = Some range →
       trim (toString selection) ≠ "" →
       getClientRects range = rects →
       rects = firstRect :: rest →
       pageRefs w !! pageNumber = Some (Some pageContainer) →
       getBoundingClientRect pageContainer = pageRect →
       selectionTimer pageNumber w
       = Returned
           (setSelectionData
              (Some (SelectionData.mk pageNumber
                                      (relativeRects rects pageRect)
                                      (trim (toString selection))
                                      (buttonPosition firstRect pageRect)))
              w)).
Proof.
  split_and!.
  - apply length_fmap.
  - intros i. apply list_lookup_fmap.
  - done.
  - intros pageNumber w selection range firstRect rest pageContainer
           Hsel Hcoll Hrange Htext Hrects Hfirst Hpage Hbox.
    unfold selectionTimer. rewrite Hsel, Hcoll. simpl.
    unfold getRangeAt, rangeCount.
    destruct (ranges selection) as [|r0 others]; [done|].
    simpl in Hrange. injection Hrange as ->.
    rewrite bool_decide_eq_false_2 by done. simpl.
    destruct (trim (toString selection)) as [|a t] eqn:Htrim; [done|].
    simpl. rewrite Hrects, Hfirst. simpl.
    by rewrite Hpage, Hbox.
Qed.

Lemma geometry_transformer_witness :
  (Position.y (buttonPosition (ClientRect.mk (q 100) (q 50) (q 80) (q 20))
                              (getBoundingClientRect samplePage)) < 0)%Qc
  ∧ selectionTimer 2 (run (mount None)
                          [LoadSuccess 3;
                           Browser (Some sampleSelection) sampleRefs])
    = Returned capturedWorld.
Proof.
  split; [reflexivity|].
  destruct (geometry_transformer sampleRects
                                 (getBoundingClientRect samplePage))
    as (_ & _ & _ & Hcapture).
  by erewrite Hcapture.
Defined.

(** C6, as stated, fails in the arithmetic of the code: 0.9 - 0.3 is
    rounded, and adding 0.3 to it gives the number next to 0.9. *)
Lemma round_trip_loses_a_bit :
  Binary64.reAddOffset fractionalPage
    <$> Binary64.relativeRects [fractionalRect] fractionalPage
  ≠ [fractionalRect].
Proof.
  intros Heq.
  apply (f_equal (λ rects,
           match rects with
           | r :: _ => PrimFloat.eqb (Binary64.ClientRect.left r) number_0_9
           | [] => true
           end)) in Heq.
  vm_compute in Heq. discriminate.
Qed.

(** C6, amended: for every list of rectangles and every page box (so
    for the page boxes with a non-negative offset too), taking the page
    offset off and adding it back gives the rectangles one started from
    when the subtraction and the addition are exact.  In binary64 it
    gives as many rectangles in the same order with the same width and
    height, each at [(left - offset) + offset] and
    [(top - offset) + offset] as rounded; these are the rectangles one
    started from exactly when that double rounding gives back every
    left and every top. *)
Theorem geometry_round_trip :
  (∀ (rects : list ClientRect.t) (pageRect : ClientRect.t),
     reAddOffset pageRect <$> relativeRects rects pageRect = rects)
  ∧ (∀ (rects : list Binary64.ClientRect.t)
       (pageRect : Binary64.ClientRect.t),
       Binary64.reAddOffset pageRect
         <$> Binary64.relativeRects rects pageRect
       = Binary64.reAdded pageRect <$> rects)
  ∧ (∀ (rects : list Binary64.ClientRect.t)
       (pageRect : Binary64.ClientRect.t),
       Binary64.reAddOffset pageRect
         <$> Binary64.relativeRects rects pageRect = rects
       ↔ Forall (λ r,
           (Binary64.ClientRect.left r - Binary64.ClientRect.left pageRect
            + Binary64.ClientRect.left pageRect)%float
           = Binary64.ClientRect.left r
           ∧ (Binary64.ClientRect.top r - Binary64.ClientRect.top pageRect
              + Binary64.ClientRect.top pageRect)%float
             = Binary64.ClientRect.top r) rects).
Proof.
  assert (∀ rects pageRect,
            Binary64.reAddOffset pageRect
              <$> Binary64.relativeRects rects pageRect
            = Binary64.reAdded pageRect <$> rects) as Hshape.
  { intros rects pageRect. unfold Binary64.relativeRects.
    by rewrite <- list_fmap_compose. }
  split_and!; [|exact Hshape|].
  - intros rects pageRect. unfold relativeRects.
    induction rects as [|[l t wd ht] rects IH]; [done|].
    rewrite !fmap_cons, IH. f_equal.
    unfold reAddOffset, relativeRect. simpl. f_equal; ring.
  - intros rects pageRect. rewrite Hshape.
    induction rects as [|[l t wd ht] rects IH].
    + split; [intros _; apply Forall_nil_2|done].
    + rewrite fmap_cons, Forall_cons. simpl. split.
      * intros Heq. injection Heq as Hl Ht Hrest.
        split; [done|by apply IH].
      * intros [[Hl Ht] Hrest%IH].
        unfold Binary64.reAdded at 1. simpl. by rewrite Hl, Ht, Hrest.
Qed.

(** Whole numbers of this size are subtracted and added exactly. *)
Lemma geometry_round_trip_witness :
  Binary64.reAddOffset wholePage
    <$> Binary64.relativeRects [wholeRect] wholePage = [wholeRect]
  ∧ reAddOffset (getBoundingClientRect samplePage)
      <$> relativeRects sampleRects (getBoundingClientRect samplePage)
    = sampleRects.
Proof.
  destruct geometry_round_trip as (Hexact & _ & Hbinary). split.
  - apply Hbinary. apply Forall_singleton. split; reflexivity.
  - apply Hexact.
Defined.

(** ** Selection capture *)

(** C7: when the capture callback finds no selection, a collapsed one,
    one without a range or whose range has no client rectangle, one
    whose trimmed text is empty, or no mounted container for its page,
    it returns without raising and the world it returns is the one it
    was given. *)
Theorem selectionTimer_degenerate (pageNumber : Z) (w : World) :
  windowSelection w = None
  ∨ (∃ selection,
       windowSelection w = Some selection
       ∧ (isCollapsed selection = true
          ∨ rangeCount selection = 0
          ∨ (∀ range, ranges selection !! 0%nat = Some range →
                      getClientRects range = [])
          ∨ trim (toString selection) = ""))
  ∨ pageRefs w !! pageNumber = None
  ∨ pageRefs w !! pageNumber = Some None →
  selectionTimer pageNumber w = Returned w.
Proof.
  intros Hdegenerate. unfold selectionTimer.
  destruct (windowSelection w) as [selection|] eqn:Hsel; [|done].
  destruct (isCollapsed selection) eqn:Hcoll; [done|]. simpl.
  case_bool_decide as Hcount; [done|].
  unfold getRangeAt, rangeCount in *.
  destruct (ranges selection) as [|range others] eqn:Hranges; [done|].
  simpl.
  destruct (trim (toString selection)) as [|a t] eqn:Htrim; [done|].
  simpl. case_bool_decide as Hrects; [done|].
  destruct (pageRefs w !! pageNumber) as [[pageContainer|]|] eqn:Hpage;
    [|done..].
  exfalso.
  destruct Hdegenerate as [?|[(s & [= <-] & Hs)|[?|?]]]; try done.
  destruct Hs as [?|[?|[Hnone|?]]]; try congruence.
  apply Hrects. rewrite (Hnone range); [done|]. by rewrite Hranges.
Qed.

Lemma selectionTimer_degenerate_witness :
  selectionTimer 1 (run (mount None)
                        [LoadSuccess 3;
                         Browser (Some sampleSelection) sampleRefs])
  = Returned (run (mount None)
                  [LoadSuccess 3; Browser (Some sampleSelection) sampleRefs]).
Proof.
  apply selectionTimer_degenerate. right. right. right. reflexivity.
Defined.

(** ** Removal *)

(** C8, as stated, fails: in a store where two highlights carry the same
    id, confirming the removal of that id takes both away. *)
Lemma confirmRemove_takes_both :
  ¬ ("17000000000000.5" ∈ storeIds collidingWorld →
     S (length (highlights
                  (view (confirmRemoveHighlight "17000000000000.5"
                                                collidingWorld))))
     = length (highlights (view collidingWorld))).
Proof.
  intros Hclaim.
  assert ("17000000000000.5" ∈ storeIds collidingWorld) as Hin.
  { vm_compute. apply list_elem_of_here. }
  specialize (Hclaim Hin). vm_compute in Hclaim. discriminate.
Qed.

(** C8, amended: for every store and every id, [confirmRemoveHighlight]
    keeps exactly the highlights whose id differs, unchanged and in
    their order, and removes every highlight that carries the id: none
    when the id is absent (the store is left as it was), exactly one
    when the id is present and the ids of the store are pairwise
    distinct.  It never raises, and the armed highlight is cleared. *)
Theorem confirmRemoveHighlight_effect (highlightId : string) (w : World) :
  let w' := confirmRemoveHighlight highlightId w in
  highlights (view w')
  = filter (λ h, Highlight.id h ≠ highlightId) (highlights (view w))
  ∧ highlights (view w') `sublist_of` highlights (view w)
  ∧ (∀ h, h ∈ highlights (view w) → Highlight.id h ≠ highlightId →
          h ∈ highlights (view w'))
  ∧ (highlightId ∉ storeIds w')
  ∧ (highlightId ∉ storeIds w →
     highlights (view w') = highlights (view w))
  ∧ (NoDup (storeIds w) → highlightId ∈ storeIds w →
     S (length (highlights (view w'))) = length (highlights (view w)))
  ∧ highlightToDelete (view w') = None
  ∧ selectionData (view w') = selectionData (view w).
Proof.
  destruct w as [[n e hs c d a] refs sel ts ol].
  unfold storeIds. simpl. split_and!; try done.
  - apply sublist_filter.
  - intros h Hin Hne. by apply list_elem_of_filter.
  - intros Hin. apply list_elem_of_fmap in Hin as (h & Hid & Hh).
    apply list_elem_of_filter in Hh as [Hne _]. by apply Hne.
  - apply filter_id_absent.
  - apply filter_id_present.
Qed.

Lemma confirmRemoveHighlight_effect_witness :
  NoDup (storeIds busyWorld)
  ∧ "17000000000000.5" ∈ storeIds busyWorld
  ∧ S (length (highlights
                 (view (confirmRemoveHighlight "17000000000000.5"
                                               busyWorld))))
    = length (highlights (view busyWorld)).
Proof.
  assert (NoDup (storeIds busyWorld)) as Hnd.
  { vm_compute. apply NoDup_singleton. }
  assert ("17000000000000.5" ∈ storeIds busyWorld) as Hin.
  { vm_compute. apply list_elem_of_here. }
  split_and!; [done..|].
  destruct (confirmRemoveHighlight_effect "17000000000000.5" busyWorld)
    as (_ & _ & _ & _ & _ & Hone & _).
  by apply Hone.
Defined.

(** ** Runs *)

Lemma run_app (w : World) (evs1 evs2 : list Event) :
  run w (evs1 ++ evs2) = run (run w evs1) evs2.
Proof. apply foldl_app. Qed.

Lemma minted_app (w : World) (evs1 evs2 : list Event) :
  minted w (evs1 ++ evs2) = minted w evs1 ++ minted (run w evs1) evs2.
Proof.
  revert w. induction evs1 as [|e evs1 IH]; intros w; [done|].
  simpl. by rewrite IH, app_assoc.
Qed.

Lemma along_app (P : World → Event → Prop) (w : World)
  (evs1 evs2 : list Event) :
  along P w (evs1 ++ evs2) ↔ along P w evs1 ∧ along P (run w evs1) evs2.
Proof.
  revert w. induction evs1 as [|e evs1 IH]; intros w; simpl.
  - tauto.
  - rewrite IH. tauto.
Qed.

Lemma along_take (P : World → Event → Prop) (w : World)
  (evs : list Event) (k : nat) :
  along P w evs → along P w (take k evs).
Proof.
  rewrite <- (take_drop k evs) at 1. by intros [? _]%along_app.
Qed.

(** *** Identity of highlights *)

(** One event adds to the store no id but the one it mints. *)
Lemma storeIds_step (w : World) (e : Event) :
  storeIds (step w e) `sublist_of` storeIds w ++ mintedBy w e.
Proof.
  unfold storeIds, mintedBy.
  destruct e; simpl; rewrite ?app_nil_r;
    try by destruct w as [[] ? ? ? ?].
  - by rewrite fireTimer_highlights.
  - unfold createHighlight.
    destruct (selectionData (view w)) as [sd|] eqn:Hsd;
      [|by rewrite app_nil_r].
    destruct w as [[] ? ? ? ?]; simpl. by rewrite fmap_app.
  - destruct w as [[] ? ? ? ?]; simpl.
    apply fmap_sublist, sublist_filter.
  - destruct w as [[] ? ? ? ?]; simpl. apply sublist_nil_l.
Qed.

Lemma storeIds_run (w : World) (evs : list Event) :
  storeIds (run w evs) `sublist_of` storeIds w ++ minted w evs.
Proof.
  revert w. induction evs as [|e evs IH]; intros w; simpl.
  - by rewrite app_nil_r.
  - etrans; [apply IH|]. rewrite app_assoc.
    apply sublist_app; [apply storeIds_step|done].
Qed.

(** C3, as stated, fails: two commits that read the same millisecond
    from the clock and the same random draw give their highlights the
    same id. *)
Lemma colliding_draws_share_an_id :
  ¬ NoDup (storeIds (run (mount None) collisionRun)).
Proof.
  intros Hnd. vm_compute in Hnd.
  apply NoDup_cons_1_1 in Hnd. apply Hnd, list_elem_of_here.
Qed.

Lemma isDigit_pretty_N_char (x : N) : isDigit (pretty_N_char x) = true.
Proof. unfold pretty_N_char. by repeat case_match. Qed.

Lemma allDigits_pretty_N_go (x : N) (s : string) :
  allDigits s = true → allDigits (pretty_N_go x s) = true.
Proof.
  revert s. induction (N.lt_wf_0 x) as [x _ IH]; intros s Hs.
  assert (x = 0 ∨ 0 < x)%N as [->|Hpos] by lia.
  - by rewrite pretty_N_go_0.
  - rewrite pretty_N_go_step by done.
    apply IH; [by apply N.div_lt|].
    simpl. by rewrite isDigit_pretty_N_char.
Qed.

Lemma allDigits_pretty_N (x : N) : allDigits (pretty x) = true.
Proof.
  unfold pretty, pretty_N. case_decide; [done|].
  by apply allDigits_pretty_N_go.
Qed.


Lemma pretty_N_go_length (x : N) (s : string) :
  (String.length s ≤ String.length (pretty_N_go x s))%nat.
Proof.
  revert s. induction (N.lt_wf_0 x) as [x _ IH]; intros s.
  assert (x = 0 ∨ 0 < x)%N as [->|Hpos] by lia.
  - by rewrite pretty_N_go_0.
  - rewrite pretty_N_go_step by done.
    etrans; [|apply IH; by apply N.div_lt]. simpl. lia.
Qed.

Lemma pretty_N_not_empty (x : N) : pretty x ≠ "".
Proof.
  unfold pretty, pretty_N. case_decide as Hx; [done|].
  intros Hempty. rewrite pretty_N_go_step in Hempty by lia.
  pose proof (pretty_N_go_length (x `div` 10)
                (String (pretty_N_char (x `mod` 10)) "")) as Hlen.
  rewrite Hempty in Hlen. simpl in Hlen. lia.
Qed.

Lemma append_nil (s : string) : "" +:+ s = s.
Proof. reflexivity. Qed.

Lemma append_cons (a : Ascii.ascii) (s t : string) :
  String a s +:+ t = String a (s +:+ t).
Proof. reflexivity. Qed.

(** The rendering of a random draw is a digit, followed by nothing or
    by a character that is not a digit. *)
Lemma mathRandomText_shape (r : string) :
  mathRandomText r = true →
  ∃ d rest, r = String d rest ∧ isDigit d = true
            ∧ (rest = "" ∨ ∃ c rest', rest = String c rest'
                                      ∧ isDigit c = false).
Proof.
  destruct r as [|d [|c rest']]; simpl; [done| |].
  - intros ->%Ascii.eqb_eq. exists (Ascii.ascii_of_nat 48), "". eauto.
  - intros [Hd Hc%negb_true_iff]%andb_true_iff.
    exists d, (String c rest'). eauto 10.
Qed.

Lemma draw_after_digits (b r1 r2 : string) :
  allDigits b = true →
  mathRandomText r1 = true → mathRandomText r2 = true →
  r1 = b +:+ r2 → b = "" ∧ r1 = r2.
Proof.
  intros Hb (d1 & rest1 & -> & _ & Hrest1)%mathRandomText_shape
         (d2 & rest2 & -> & Hd2 & _)%mathRandomText_shape Heq.
  destruct b as [|y b']; [by rewrite append_nil in Heq|exfalso].
  rewrite append_cons in Heq. injection Heq as _ Heq.
  simpl in Hb. apply andb_true_iff in Hb as [_ Hb'].
  destruct Hrest1 as [->|(c & rest' & -> & Hc)].
  - destruct b'; discriminate.
  - destruct b' as [|y' b''].
    + rewrite append_nil in Heq. injection Heq as -> _. congruence.
    + rewrite append_cons in Heq. injection Heq as -> _.
      simpl in Hb'. apply andb_true_iff in Hb' as [Hy' _]. congruence.
Qed.

(** Two runs of digits, each followed by the rendering of a random
    draw, make the same text only if the runs and the draws are the
    same. *)
Lemma digits_then_draw_inj (a b r1 r2 : string) :
  allDigits a = true → allDigits b = true →
  mathRandomText r1 = true → mathRandomText r2 = true →
  a +:+ r1 = b +:+ r2 → a = b ∧ r1 = r2.
Proof.
  revert b. induction a as [|x a IH]; intros b Ha Hb Hr1 Hr2 Heq.
  - rewrite append_nil in Heq.
    by destruct (draw_after_digits b r1 r2) as [-> ->].
  - destruct b as [|y b].
    + rewrite append_nil in Heq. symmetry in Heq.
      by destruct (draw_after_digits (String x a) r2 r1).
    + rewrite !append_cons in Heq. injection Heq as -> Heq.
      simpl in Ha, Hb.
      apply andb_true_iff in Ha as [_ Ha].
      apply andb_true_iff in Hb as [_ Hb].
      by destruct (IH b) as [-> ->].
Qed.

Lemma pretty_Z_neg (p : positive) (r : string) :
  ∃ c, isDigit c = false
       ∧ pretty (Z.neg p) +:+ r = String c (pretty (N.pos p) +:+ r).
Proof. eexists. split; [|reflexivity]. reflexivity. Qed.

Lemma pretty_N_then_draw (n : N) (r : string) :
  mathRandomText r = true →
  ∃ d rest, pretty n +:+ r = String d rest ∧ isDigit d = true.
Proof.
  intros (d & rest & -> & Hd & _)%mathRandomText_shape.
  pose proof (allDigits_pretty_N n) as Hdig.
  pose proof (pretty_N_not_empty n) as Hne.
  destruct (pretty n) as [|y t]; [done|].
  simpl in Hdig. apply andb_true_iff in Hdig as [Hy _].
  rewrite append_cons. eauto.
Qed.

Lemma pretty_Z_of_N (n : N) : pretty (Z.of_N n) = pretty n.
Proof. by destruct n. Qed.

(** [newId] on the renderings of random draws is one to one: the digits
    of the clock end where the draw begins. *)
Lemma newId_inj (now1 now2 : Z) (random1 random2 : string) :
  mathRandomText random1 = true → mathRandomText random2 = true →
  newId now1 random1 = newId now2 random2 →
  now1 = now2 ∧ random1 = random2.
Proof.
  intros Hr1 Hr2. unfold newId.
  assert (∀ n m : N,
            pretty (Z.of_N n) +:+ random1 = pretty (Z.of_N m) +:+ random2 →
            Z.of_N n = Z.of_N m ∧ random1 = random2) as Hnat.
  { intros n m. rewrite !pretty_Z_of_N. intros Heq.
    apply digits_then_draw_inj in Heq as [Heq ->];
      try done; try apply allDigits_pretty_N.
    by apply (inj pretty) in Heq as ->. }
  assert (∀ (n : N) (q : positive) r1 r2,
            mathRandomText r1 = true →
            pretty (Z.of_N n) +:+ r1 ≠ pretty (Z.neg q) +:+ r2) as Hsign.
  { intros n q r1 r2 H1 Heq. rewrite pretty_Z_of_N in Heq.
    destruct (pretty_N_then_draw n r1 H1) as (d & rest & Hn & Hd).
    destruct (pretty_Z_neg q r2) as (c & Hc & Hq).
    rewrite Hn, Hq in Heq. injection Heq as -> _. congruence. }
  destruct now1 as [|p|p], now2 as [|q|q]; intros Heq.
  - apply (Hnat 0%N 0%N Heq).
  - apply (Hnat 0%N (N.pos q) Heq).
  - by destruct (Hsign 0%N q random1 random2).
  - apply (Hnat (N.pos p) 0%N Heq).
  - apply (Hnat (N.pos p) (N.pos q) Heq).
  - by destruct (Hsign (N.pos p) q random1 random2).
  - symmetry in Heq. by destruct (Hsign 0%N p random2 random1).
  - symmetry in Heq. by destruct (Hsign (N.pos q) p random2 random1).
  - destruct (pretty_Z_neg p random1) as (c1 & _ & Hp).
    destruct (pretty_Z_neg q random2) as (c2 & _ & Hq).
    rewrite Hp, Hq in Heq. injection Heq as _ Heq.
    destruct (Hnat (N.pos p) (N.pos q) Heq) as [[= ->] ->]. done.
Qed.

Lemma minted_draws (w : World) (evs : list Event) :
  minted w evs = (λ d, newId d.1 d.2) <$> draws w evs.
Proof.
  revert w. induction evs as [|e evs IH]; intros w; [done|].
  simpl. rewrite fmap_app, <- IH. f_equal.
  unfold mintedBy, drawnBy.
  destruct e; try done. by destruct (selectionData (view w)).
Qed.

(** Commits whose clock value and draw differ as pairs mint different
    ids. *)
Lemma minted_NoDup (w : World) (evs : list Event) :
  Forall (λ d, mathRandomText d.2 = true) (draws w evs) →
  NoDup (draws w evs) → NoDup (minted w evs).
Proof.
  intros Hwf Hnd. rewrite minted_draws.
  apply NoDup_fmap_2_strong; [|done].
  intros [n1 r1] [n2 r2] H1 H2 Heq. simpl in Heq.
  rewrite Forall_forall in Hwf.
  destruct (newId_inj n1 n2 r1 r2) as [-> ->]; try done.
  - apply (Hwf _ H1).
  - apply (Hwf _ H2).
Qed.

(** C3, amended: [createHighlight] builds the id from the clock and the
    random draw and compares it with no other.  Whatever is drawn, the
    ids of the store are at every moment a subsequence of the ids minted
    so far: removal, clear-all and the other events add none.  If no two
    commits that create a highlight read both the same clock value and
    the same random draw, the draw rendered as text the way JavaScript
    renders a number from 0 up to 1, then the ids minted in the session
    are pairwise distinct, so that no new id is the id of a highlight
    created before, deleted or not, and at every moment the ids of the
    store are pairwise distinct. *)
Theorem store_ids_distinct (o : option (list Z)) (evs : list Event) :
  (∀ k : nat,
     storeIds (run (mount o) (take k evs))
       `sublist_of` minted (mount o) (take k evs))
  ∧ (Forall (λ d, mathRandomText d.2 = true) (draws (mount o) evs) →
     NoDup (draws (mount o) evs) →
     NoDup (minted (mount o) evs)
     ∧ ∀ k : nat, NoDup (storeIds (run (mount o) (take k evs)))).
Proof.
  split.
  - intros k. apply (storeIds_run (mount o) (take k evs)).
  - intros Hwf Hnd. pose proof (minted_NoDup _ _ Hwf Hnd) as Hminted.
    split; [done|]. intros k.
    eapply sublist_NoDup; [exact Hminted|].
    etrans; [apply (storeIds_run (mount o) (take k evs))|].
    assert (minted (mount o) evs
            = minted (mount o) (take k evs)
              ++ minted (run (mount o) (take k evs)) (drop k evs))
      as -> by (by rewrite <- minted_app, take_drop).
    by apply sublist_inserts_r.
Qed.

Lemma store_ids_distinct_witness :
  draws (mount None) distinctRun
  = [(1700000000000, "0.5"); (1700000000001, "0.25")]
  ∧ storeIds (run (mount None) distinctRun)
    = ["17000000000000.5"; "17000000000010.25"]
  ∧ NoDup (storeIds (run (mount None) distinctRun)).
Proof.
  split_and!; [reflexivity..|].
  destruct (store_ids_distinct None distinctRun) as [_ Hdistinct].
  destruct Hdistinct as [_ Hstore].
  - vm_compute. repeat constructor.
  - change (draws (mount None) distinctRun)
      with [(1700000000000, "0.5"); (1700000000001, "0.25")].
    apply NoDup_cons_2; [|apply NoDup_singleton].
    intros Hin%list_elem_of_singleton. discriminate.
  - specialize (Hstore (length distinctRun)).
    by rewrite firstn_all in Hstore.
Defined.

(** *** Page numbers *)

Lemma pagesKnown_mount (o : option (list Z)) : pagesKnown (mount o).
Proof.
  split; [split|]; simpl; [apply Forall_nil_2|done|apply Forall_nil_2].
Qed.

Lemma pagesKnown_step (w : World) (e : Event) :
  pagesKnown w → fromRenderedPage w e → keepsPageCount w e →
  pagesKnown (step w e).
Proof.
  intros Hinv Hpage Hcount.
  pose proof Hinv as [[Hstore Hsel] Htimers].
  destruct e as [n| |pageNumber| |now random|i|i| | |c|sel refs]; simpl in *.
  - (* LoadSuccess *)
    destruct w as [[m e hs c d a] refs sel ts ol]; simpl in *.
    split; [split|]; simpl.
    + eapply Forall_impl; [exact Hstore|]. simpl. lia.
    + intros sd Hsd. specialize (Hsel sd Hsd). lia.
    + eapply Forall_impl; [exact Htimers|]. simpl. lia.
  - (* LoadError *)
    by destruct w as [[m e hs c d a] refs sel ts ol].
  - (* MouseUp *)
    apply renderedPages_range in Hpage.
    destruct w as [[m e hs c d a] refs sel ts ol]; simpl in *.
    split; [done|]. simpl. apply Forall_app. split; [done|].
    by apply Forall_singleton.
  - (* TimerFires *)
    destruct (fireTimer_cases w) as [Hview Hqueue].
    assert (numPages (view (fireTimer w)) = numPages (view w)) as Hn.
    { destruct Hview as [->|(p & sd & _ & _ & ->)];
        [done|by destruct w as [[] ? ? ? ?]]. }
    split; [split|]; rewrite ?Hn.
    + by rewrite fireTimer_highlights.
    + intros sd Hsd.
      destruct Hview as [Hsame|(p & sd' & Hin & Hp & Hset)].
      * rewrite Hsame in Hsd. by apply Hsel.
      * rewrite Hset in Hsd. destruct w as [[] ? ? ? ?]; simpl in *.
        injection Hsd as <-. rewrite Hp.
        by eapply Forall_forall in Htimers.
    + rewrite Hqueue. destruct (timers w); [done|].
      by apply Forall_cons_1 in Htimers as [_ ?].
  - (* HighlightButton *)
    unfold createHighlight.
    destruct (selectionData (view w)) as [sd|] eqn:Hsd; [|exact Hinv].
    specialize (Hsel sd eq_refl).
    destruct w as [[m e hs c d a] refs sel ts ol]; simpl in *.
    split; [split|]; simpl; [|done..].
    apply Forall_app. split; [done|]. by apply Forall_singleton.
  - (* HighlightClick *)
    by destruct w as [[m e hs c d a] refs sel ts ol].
  - (* DeleteButton *)
    destruct w as [[m e hs c d a] refs sel ts ol]; simpl in *.
    split; [split|]; simpl; [|done..].
    apply Forall_forall. intros h [_ Hin]%list_elem_of_filter.
    by eapply Forall_forall in Hstore.
  - (* ClearAll *)
    destruct w as [[m e hs c d a] refs sel ts ol]; simpl in *.
    split; [split|]; simpl; [apply Forall_nil_2|done..].
  - (* DocumentClick *)
    destruct w as [[m e hs c d a] refs sel ts ol]; simpl in *.
    split; [split|]; simpl; done.
  - (* PickColor *)
    by destruct w as [[m e hs c0 d a] refs sel ts ol].
  - (* Browser *)
    by destruct w as [[m e hs c d a] refs0 sel0 ts ol].
Qed.

Lemma pagesKnown_run (w : World) (evs : list Event) :
  pagesKnown w → along fromRenderedPage w evs → along keepsPageCount w evs →
  pagesKnown (run w evs).
Proof.
  revert w. induction evs as [|e evs IH]; intros w Hinv Hpages Hcounts;
    [done|].
  destruct Hpages as [Hpage Hpages], Hcounts as [Hcount Hcounts]. simpl.
  apply IH; [by apply pagesKnown_step|done..].
Qed.

Lemma numPages_step (w : World) (e : Event) :
  keepsPageCount w e → numPages (view w) ≤ numPages (view (step w e)).
Proof.
  intros Hcount. destruct e; simpl in *;
    try by destruct w as [[] ? ? ? ?].
  - destruct (fireTimer_cases w) as [[->|(p & sd & _ & _ & ->)] _];
      [done|by destruct w as [[] ? ? ? ?]].
  - unfold createHighlight. destruct (selectionData (view w)); [|done].
    by destruct w as [[] ? ? ? ?].
Qed.

Lemma numPages_run (w : World) (evs : list Event) :
  along keepsPageCount w evs →
  numPages (view w) ≤ numPages (view (run w evs)).
Proof.
  revert w. induction evs as [|e evs IH]; intros w; simpl; [done|].
  intros [Hcount Hcounts]. etrans; [by apply numPages_step|by apply IH].
Qed.

(** C9, as stated, fails: every mouse-up of the run comes from a
    rendered page, yet after a one-page document is loaded into a viewer
    that shows three pages, the page count has gone down and the store
    and the pending selection refer to pages 2 and 3. *)
Lemma reload_breaks_page_range :
  along fromRenderedPage (mount None) reloadRun
  ∧ ¬ pagesInRange (view (run (mount None) reloadRun))
  ∧ numPages (view (run (mount None) reloadRun))
    < numPages (view (run (mount None) busyRun)).
Proof.
  split_and!.
  - vm_compute. split_and!; try exact I; repeat constructor.
  - intros [Hstore _]. vm_compute in Hstore.
    apply Forall_cons_1 in Hstore as [[_ Hle] _]. by apply Hle.
  - reflexivity.
Qed.

(** C9, amended: the page count is the one the latest successful load
    reported, so it goes down when a smaller document is loaded.  In a
    session where every mouse-up comes from a rendered page and no load
    reports fewer pages than are shown, at every moment each stored
    highlight and the pending selection, if any, have a page number
    between 1 and the page count, and the page count never exceeds its
    final value. *)
Theorem pages_in_range_without_shrinking
  (o : option (list Z)) (evs : list Event) :
  along fromRenderedPage (mount o) evs →
  along keepsPageCount (mount o) evs →
  ∀ k : nat,
    pagesInRange (view (run (mount o) (take k evs)))
    ∧ numPages (view (run (mount o) (take k evs)))
      ≤ numPages (view (run (mount o) evs)).
Proof.
  intros Hpages Hcounts k. split.
  - apply pagesKnown_run;
      [apply pagesKnown_mount|by apply along_take..].
  - rewrite <- (take_drop k evs) in Hcounts.
    apply along_app in Hcounts as [_ Hrest].
    apply numPages_run in Hrest. by rewrite <- run_app, take_drop in Hrest.
Qed.

Lemma pages_in_range_without_shrinking_witness :
  along fromRenderedPage (mount None) busyRun
  ∧ along keepsPageCount (mount None) busyRun
  ∧ pagesInRange (view busyWorld).
Proof.
  assert (along fromRenderedPage (mount None) busyRun) as Hpages.
  { vm_compute. split_and!; try exact I; repeat constructor. }
  assert (along keepsPageCount (mount None) busyRun) as Hcounts.
  { vm_compute. split_and!; try exact I. discriminate. }
  split_and!; [done..|].
  destruct (pages_in_range_without_shrinking None busyRun Hpages Hcounts
                                             (length busyRun)) as [Hin _].
  by rewrite firstn_all in Hin.
Defined.

(** ** Further properties of the viewer *)

(** *** Selection capture *)

Lemma selectionTimer_cases_strong (pageNumber : Z) (w : World) :
  selectionTimer pageNumber w = Returned w
  ∨ ∃ sd, selectionTimer pageNumber w
          = Returned (setSelectionData (Some sd) w)
          ∧ SelectionData.pageNumber sd = pageNumber
          ∧ captured (SelectionData.rects sd) (SelectionData.text sd).
Proof.
  unfold selectionTimer.
  destruct (windowSelection w) as [selection|]; [|by left].
  destruct (isCollapsed selection); [by left|]. simpl.
  case_bool_decide as Hcount; [by left|].
  unfold getRangeAt, rangeCount in *.
  destruct (ranges selection) as [|range others]; [done|]. simpl.
  destruct (trim (toString selection)) as [|a t] eqn:Htrim; [by left|].
  simpl. case_bool_decide as Hrects; [by left|].
  destruct (pageRefs w !! pageNumber) as [[pageContainer|]|]; try by left.
  destruct (getClientRects range) as [|firstRect rest]; [done|].
  right. eexists. split; [reflexivity|]. by split.
Qed.

(** X1: the capture callback never raises and writes nothing but the
    pending selection: the store, the armed highlight, the page count,
    the colour, the error, the browser's selection, the page containers
    and the timer queue are what they were; a selection it records is on
    the page it was scheduled for and has at least one rectangle and a
    text that is not empty. *)
Theorem capture_writes_selection_only (pageNumber : Z) (w : World) :
  ∃ w', selectionTimer pageNumber w = Returned w'
        ∧ highlights (view w') = highlights (view w)
        ∧ highlightToDelete (view w') = highlightToDelete (view w)
        ∧ numPages (view w') = numPages (view w)
        ∧ selectedColor (view w') = selectedColor (view w)
        ∧ error (view w') = error (view w)
        ∧ windowSelection w' = windowSelection w
        ∧ pageRefs w' = pageRefs w
        ∧ timers w' = timers w
        ∧ (selectionData (view w') = selectionData (view w)
           ∨ ∃ sd, selectionData (view w') = Some sd
                   ∧ SelectionData.pageNumber sd = pageNumber
                   ∧ SelectionData.rects sd ≠ []
                   ∧ SelectionData.text sd ≠ "").
Proof.
  destruct (selectionTimer_cases_strong pageNumber w)
    as [->|(sd & -> & Hpage & Hrects & Htext)].
  - exists w. split_and!; try done. by left.
  - eexists. split; [reflexivity|].
    destruct w as [[] ? ? ? ?]; simpl. split_and!; try done.
    right. by exists sd.
Qed.

Lemma selectionTimer_valid
  (pageNumber : Z) (w : World) (selection : Selection) (range : Range)
  (firstRect : ClientRect.t) (rest : list ClientRect.t)
  (pageContainer : HTMLDivElement) :
  windowSelection w = Some selection →
  isCollapsed selection = false →
  ranges selection !! 0%nat = Some range →
  trim (toString selection) ≠ "" →
  getClientRects range = firstRect :: rest →
  pageRefs w !! pageNumber = Some (Some pageContainer) →
  selectionTimer pageNumber w
  = Returned
      (setSelectionData
         (Some (SelectionData.mk
                  pageNumber
                  (relativeRects (firstRect :: rest)
                                 (getBoundingClientRect pageContainer))
                  (trim (toString selection))
                  (buttonPosition firstRect
                                  (getBoundingClientRect pageContainer))))
         w).
Proof.
  intros Hsel Hcoll Hrange Htext Hrects Hpage.
  unfold selectionTimer. rewrite Hsel, Hcoll. simpl.
  unfold getRangeAt, rangeCount.
  destruct (ranges selection) as [|r0 others]; [done|].
  simpl in Hrange. injection Hrange as ->.
  rewrite bool_decide_eq_false_2 by done. simpl.
  destruct (trim (toString selection)) as [|a t] eqn:Htrim; [done|].
  simpl. by rewrite Hrects, Hpage.
Qed.

(** X2: at most one selection is pending and the latest capture wins.
    With a valid selection standing and two captures scheduled, for the
    mounted pages p1 and then p2, the pending selection after the first
    timer is the one captured on p1 and after the second timer it is
    the one captured on p2 and nothing else: page p2, the rectangles
    relative to the container of p2, the trimmed text and the anchor
    above the first rectangle, whatever was pending before.  The store
    and the armed highlight are not touched and no capture is left
    waiting. *)
Theorem latest_capture_wins
  (p1 p2 : Z) (w : World) (selection : Selection) (range : Range)
  (firstRect : ClientRect.t) (rest : list ClientRect.t)
  (c1 c2 : HTMLDivElement) :
  timers w = [] →
  windowSelection w = Some selection →
  isCollapsed selection = false →
  ranges selection !! 0%nat = Some range →
  trim (toString selection) ≠ "" →
  getClientRects range = firstRect :: rest →
  pageRefs w !! p1 = Some (Some c1) →
  pageRefs w !! p2 = Some (Some c2) →
  let capture := λ (p : Z) (c : HTMLDivElement),
    SelectionData.mk
      p
      (relativeRects (firstRect :: rest) (getBoundingClientRect c))
      (trim (toString selection))
      (buttonPosition firstRect (getBoundingClientRect c)) in
  let w1 := run w [MouseUp p1; MouseUp p2; TimerFires] in
  let w2 := run w [MouseUp p1; MouseUp p2; TimerFires; TimerFires] in
  selectionData (view w1) = Some (capture p1 c1)
  ∧ timers w1 = [p2]
  ∧ selectionData (view w2) = Some (capture p2 c2)
  ∧ timers w2 = []
  ∧ highlights (view w2) = highlights (view w)
  ∧ highlightToDelete (view w2) = highlightToDelete (view w).
Proof.
  intros Hq Hsel Hcoll Hrange Htext Hrects Hp1 Hp2 capture w1 w2.
  set (waiting := λ ps, mkWorld (view w) (pageRefs w) (windowSelection w)
                                ps (onLoadSuccess w)).
  assert (w1 = setSelectionData (Some (capture p1 c1)) (waiting [p2]))
    as Hw1.
  { subst w1. unfold run. cbn [foldl step].
    unfold fireTimer, handleTextSelection. cbn [timers]. rewrite Hq.
    cbn [app view pageRefs windowSelection onLoadSuccess].
    by erewrite selectionTimer_valid. }
  assert (w2 = setSelectionData (Some (capture p2 c2)) (waiting []))
    as Hw2.
  { change w2 with (fireTimer w1). rewrite Hw1.
    unfold fireTimer, setSelectionData, withView, waiting.
    cbn [timers view pageRefs windowSelection onLoadSuccess].
    erewrite selectionTimer_valid; [|done..].
    by destruct w as [[] ? ? ? ?]. }
  rewrite Hw1, Hw2. by destruct w as [[] ? ? ? ?].
Qed.

Lemma latest_capture_wins_witness :
  SelectionData.pageNumber
    <$> selectionData
          (view (run capturedWorld
                     [MouseUp 2; MouseUp 3; TimerFires; TimerFires]))
  = Some 3
  ∧ SelectionData.pageNumber <$> selectionData (view capturedWorld)
    = Some 2.
Proof.
  pose proof (latest_capture_wins
                2 3 capturedWorld sampleSelection (mkRange sampleRects)
                (ClientRect.mk (q 100) (q 50) (q 80) (q 20))
                [ClientRect.mk (q 20) (q 72) (q 200) (q 20)]
                samplePage samplePage
                eq_refl eq_refl eq_refl eq_refl) as Hwins.
  destruct Hwins as (_ & _ & Hlatest & _);
    [done|reflexivity|reflexivity|reflexivity|].
  split; [|reflexivity]. by rewrite Hlatest.
Defined.

(** X3: from mouse-up to button: with no capture waiting, a mouse-up
    on a page whose container is mounted, followed by its timer while a
    valid selection stands, leaves a pending selection on that page, and
    the highlight button is then drawn on that page and on no other, at
    the anchor computed from the first rectangle. *)
Theorem mouse_up_draws_button
  (pageNumber : Z) (w : World) (selection : Selection) (range : Range)
  (firstRect : ClientRect.t) (rest : list ClientRect.t)
  (pageContainer : HTMLDivElement) :
  timers w = [] →
  windowSelection w = Some selection →
  isCollapsed selection = false →
  ranges selection !! 0%nat = Some range →
  trim (toString selection) ≠ "" →
  getClientRects range = firstRect :: rest →
  pageRefs w !! pageNumber = Some (Some pageContainer) →
  let w' := run w [MouseUp pageNumber; TimerFires] in
  timers w' = []
  ∧ highlights (view w') = highlights (view w)
  ∧ (∃ sd, selectionData (view w') = Some sd
           ∧ SelectionData.pageNumber sd = pageNumber
           ∧ length (SelectionData.rects sd) = S (length rest))
  ∧ ∀ p, highlightButton p (view w')
         = if decide (p = pageNumber)
           then Some (buttonPosition
                        firstRect (getBoundingClientRect pageContainer))
           else None.
Proof.
  intros Hq Hsel Hcoll Hrange Htext Hrects Hpage w'. subst w'.
  unfold run. simpl. unfold fireTimer. simpl. rewrite Hq. simpl.
  unfold selectionTimer. simpl. rewrite Hsel, Hcoll. simpl.
  unfold getRangeAt, rangeCount.
  destruct (ranges selection) as [|r0 others]; [done|].
  simpl in Hrange. injection Hrange as ->.
  rewrite bool_decide_eq_false_2 by done. simpl.
  destruct (trim (toString selection)) as [|a t] eqn:Htrim; [done|].
  simpl. rewrite Hrects. simpl. rewrite Hpage.
  destruct w as [[n e hs c d armed] refs sel ts ol]. simpl in *.
  split_and!; try done.
  - eexists. split_and!; [done..|]. simpl.
    unfold relativeRects. by rewrite length_fmap.
  - intros p. unfold highlightButton. simpl.
    case_bool_decide; by case_decide.
Qed.

Lemma mouse_up_draws_button_witness :
  highlightButton 2 (view capturedWorld)
  = Some (buttonPosition (ClientRect.mk (q 100) (q 50) (q 80) (q 20))
                         (getBoundingClientRect samplePage))
  ∧ highlightButton 3 (view capturedWorld) = None.
Proof.
  pose proof (mouse_up_draws_button
                2 (run (mount None)
                       [LoadSuccess 3;
                        Browser (Some sampleSelection) sampleRefs])
                sampleSelection (mkRange sampleRects)
                (ClientRect.mk (q 100) (q 50) (q 80) (q 20))
                [ClientRect.mk (q 20) (q 72) (q 200) (q 20)]
                samplePage eq_refl eq_refl eq_refl eq_refl) as Hbutton.
  destruct Hbutton as (_ & _ & _ & Hdraws); [done|reflexivity|reflexivity|].
  split; [apply (Hdraws 2)|apply (Hdraws 3)].
Defined.

(** *** The timer queue *)

Lemma run_cons (w : World) (e : Event) (evs : list Event) :
  run w (e :: evs) = run (step w e) evs.
Proof. reflexivity. Qed.

Lemma run_mouseUps (w : World) (ps : list Z) :
  view (run w (MouseUp <$> ps)) = view w
  ∧ timers (run w (MouseUp <$> ps)) = timers w ++ ps
  ∧ windowSelection (run w (MouseUp <$> ps)) = windowSelection w
  ∧ pageRefs (run w (MouseUp <$> ps)) = pageRefs w.
Proof.
  revert w. induction ps as [|p ps IH]; intros w.
  - simpl. by rewrite app_nil_r.
  - rewrite fmap_cons, run_cons.
    destruct (IH (step w (MouseUp p))) as (-> & -> & -> & ->).
    simpl. by rewrite <- app_assoc.
Qed.

Lemma run_timerFires (w : World) (n : nat) :
  timers (run w (replicate n TimerFires)) = drop n (timers w)
  ∧ highlights (view (run w (replicate n TimerFires)))
    = highlights (view w)
  ∧ highlightToDelete (view (run w (replicate n TimerFires)))
    = highlightToDelete (view w).
Proof.
  revert w. induction n as [|n IH]; intros w; [done|].
  rewrite replicate_S, run_cons.
  destruct (IH (step w TimerFires)) as (-> & -> & ->). simpl.
  destruct (fireTimer_cases w) as [Hview ->].
  split_and!.
  - destruct (timers w); simpl; [by rewrite drop_nil|done].
  - apply fireTimer_highlights.
  - destruct Hview as [->|(p & sd & _ & _ & ->)];
      [done|by destruct w as [[] ? ? ? ?]].
Qed.

(** X4: mouse-ups only schedule: after any number of them the state of
    the component is what it was and the captures wait in the order of
    the mouse-ups; [n] timer firings then consume the [n] oldest waiting
    captures (none when the queue is empty) and never touch the store or
    the armed highlight. *)
Theorem captures_fire_in_order (w : World) (ps : list Z) (n : nat) :
  view (run w (MouseUp <$> ps)) = view w
  ∧ timers (run w (MouseUp <$> ps)) = timers w ++ ps
  ∧ timers (run w ((MouseUp <$> ps) ++ replicate n TimerFires))
    = drop n (timers w ++ ps)
  ∧ highlights (view (run w ((MouseUp <$> ps) ++ replicate n TimerFires)))
    = highlights (view w)
  ∧ highlightToDelete
      (view (run w ((MouseUp <$> ps) ++ replicate n TimerFires)))
    = highlightToDelete (view w).
Proof.
  destruct (run_mouseUps w ps) as (Hview & Hq & _ & _).
  destruct (run_timerFires (run w (MouseUp <$> ps)) n) as (Hq' & Hs & Ha).
  rewrite run_app, Hq', Hs, Ha, Hq, Hview. done.
Qed.

(** *** The overlay of one page *)

(** X5: a committed selection shows on its page and on no other: the
    new highlight comes last in the overlay of the page of the pending
    selection, on top of the earlier ones, and the overlay of every
    other page is what it was. *)
Theorem commit_shows_on_its_page
  (now : Z) (random : string) (w : World) (sd : SelectionData.t) :
  selectionData (view w) = Some sd →
  let w' := createHighlight now random w in
  pageHighlights (SelectionData.pageNumber sd) (view w')
  = pageHighlights (SelectionData.pageNumber sd) (view w)
    ++ [Highlight.mk (newId now random)
                     (SelectionData.pageNumber sd)
                     (SelectionData.rects sd)
                     (Color.value (selectedColor (view w)))
                     (SelectionData.text sd)]
  ∧ ∀ p, p ≠ SelectionData.pageNumber sd →
         pageHighlights p (view w') = pageHighlights p (view w)
         ∧ highlightDivs p (view w') = highlightDivs p (view w).
Proof.
  intros Hsd w'. subst w'. unfold createHighlight. rewrite Hsd.
  destruct w as [[n e hs c d a] refs sel ts ol]; simpl in *.
  unfold highlightDivs, pageHighlights; simpl. split.
  - rewrite filter_app. f_equal. by rewrite filter_cons_True.
  - intros p Hp. rewrite filter_app, filter_cons_False by (simpl; congruence).
    by rewrite filter_nil, app_nil_r.
Qed.

Lemma commit_shows_on_its_page_witness :
  length (pageHighlights 2 (view (createHighlight 1700000000000 "0.5"
                                                  capturedWorld))) = 1%nat
  ∧ pageHighlights 3 (view (createHighlight 1700000000000 "0.5"
                                            capturedWorld)) = [].
Proof.
  destruct (selectionData (view capturedWorld)) as [sd|] eqn:Hsd;
    [|vm_compute in Hsd; discriminate].
  assert (SelectionData.pageNumber sd = 2) as Hpage.
  { vm_compute in Hsd. by injection Hsd as <-. }
  destruct (commit_shows_on_its_page 1700000000000 "0.5" capturedWorld sd Hsd)
    as [Hon Hoff].
  split.
  - rewrite Hpage in Hon. rewrite Hon, length_app. reflexivity.
  - destruct (Hoff 3) as [-> _]; [by rewrite Hpage|reflexivity].
Defined.

(** X6: removal acts page by page: the overlay of a page after
    [confirmRemoveHighlight] is its overlay before without the
    highlights that carry the id, in the same order; a page that shows
    no highlight with that id keeps its overlay. *)
Theorem removal_page_by_page (highlightId : string) (w : World) (p : Z) :
  pageHighlights p (view (confirmRemoveHighlight highlightId w))
  = filter (λ h, Highlight.id h ≠ highlightId) (pageHighlights p (view w))
  ∧ (highlightId ∉ Highlight.id <$> pageHighlights p (view w) →
     pageHighlights p (view (confirmRemoveHighlight highlightId w))
     = pageHighlights p (view w)
     ∧ highlightDivs p (view (confirmRemoveHighlight highlightId w))
       = highlightDivs p (view w)).
Proof.
  assert (pageHighlights p (view (confirmRemoveHighlight highlightId w))
          = filter (λ h, Highlight.id h ≠ highlightId)
                   (pageHighlights p (view w))) as Heq.
  { destruct w as [[n e hs c d a] refs sel ts ol].
    unfold pageHighlights; simpl.
    rewrite !list_filter_filter. apply list_filter_iff. tauto. }
  split; [done|]. intros Habsent.
  unfold highlightDivs. rewrite Heq. by rewrite filter_id_absent.
Qed.

Lemma removal_page_by_page_witness :
  pageHighlights 2 (view (confirmRemoveHighlight "17000000000010.25"
                                                 twoHighlightsWorld))
  = pageHighlights 2 (view twoHighlightsWorld).
Proof.
  destruct (removal_page_by_page "17000000000010.25" twoHighlightsWorld 2)
    as [_ Hkeep].
  apply Hkeep. vm_compute. intros Hin%list_elem_of_singleton. discriminate.
Defined.

(** *** The pages and the error screen *)

Lemma renderedPages_shape (s : State) :
  (∀ p, p ∈ renderedPages s ↔ error s = None ∧ 1 ≤ p ≤ numPages s)
  ∧ NoDup (renderedPages s)
  ∧ (∀ i : nat, (i < length (renderedPages s))%nat →
                renderedPages s !! i = Some (Z.of_nat i + 1))
  ∧ length (renderedPages s)
    = match error s with
      | Some _ => 0%nat
      | None => Z.to_nat (numPages s)
      end.
Proof.
  unfold renderedPages. destruct (error s) as [msg|]; split_and!.
  - intros p. split; [by intros ?%elem_of_nil|by intros [? _]].
  - apply NoDup_nil_2.
  - simpl. lia.
  - done.
  - intros p. rewrite list_elem_of_fmap. split.
    + intros (index & -> & Hin%elem_of_seq). split; [done|lia].
    + intros [_ Hp]. exists (Z.to_nat (p - 1)). split; [lia|].
      apply elem_of_seq. lia.
  - apply NoDup_fmap_2; [|apply NoDup_seq]. intros i j. lia.
  - intros i Hi. rewrite length_fmap, length_seq in Hi.
    rewrite list_lookup_fmap, lookup_seq_lt by done. done.
  - by rewrite length_fmap, length_seq.
Qed.

(** X7: what a render draws for the pages, in every state.  While an
    error message that is not empty is held, no page surface.
    Otherwise (no error, or the empty message, which is falsy): a
    [RangeError] when the page count is below zero or above 2^32 - 1,
    and else the pages 1 to [numPages], each once and in order, none
    for a page count of zero.  [renderedPages] is this list wherever
    the render returns and the error message is not the empty one. *)
Theorem pageSurfaces_spec (s : State) :
  (∀ message, error s = Some message → message ≠ "" →
              pageSurfaces s = Returned [])
  ∧ (error s = None ∨ error s = Some "" →
     (numPages s < 0 ∨ 2 ^ 32 - 1 < numPages s →
      pageSurfaces s = Raised "RangeError")
     ∧ (0 ≤ numPages s ≤ 2 ^ 32 - 1 →
        ∃ pages, pageSurfaces s = Returned pages
                 ∧ (∀ p, p ∈ pages ↔ 1 ≤ p ≤ numPages s)
                 ∧ NoDup pages
                 ∧ length pages = Z.to_nat (numPages s)
                 ∧ ∀ i : nat, (i < length pages)%nat →
                              pages !! i = Some (Z.of_nat i + 1)))
  ∧ (0 ≤ numPages s ≤ 2 ^ 32 - 1 → error s ≠ Some "" →
     pageSurfaces s = Returned (renderedPages s)).
Proof.
  pose proof (renderedPages_shape (mkState (numPages s) None [] defaultColor None None))
    as (Helem & Hnodup & Hlookup & Hlength).
  unfold renderedPages in *. simpl in *.
  assert ((if (numPages s <? 0) || (2 ^ 32 - 1 <? numPages s)
           then true else false) = true
          ↔ numPages s < 0 ∨ 2 ^ 32 - 1 < numPages s) as Hrange.
  { destruct (Z.ltb_spec (numPages s) 0), (Z.ltb_spec (2 ^ 32 - 1) (numPages s));
      simpl; split; try done; try lia; eauto. }
  unfold pageSurfaces. split_and!.
  - intros message -> Hne. by destruct message.
  - intros Herror.
    assert (match error s with
            | Some message => truthy message
            | None => false
            end = false) as -> by (by destruct Herror as [->| ->]).
    split.
    + intros Hout%Hrange.
      by destruct ((numPages s <? 0) || (2 ^ 32 - 1 <? numPages s)).
    + intros Hin.
      destruct ((numPages s <? 0) || (2 ^ 32 - 1 <? numPages s)) eqn:Hb.
      { assert (numPages s < 0 ∨ 2 ^ 32 - 1 < numPages s) as [|]
          by (by apply Hrange); lia. }
      eexists. split; [reflexivity|]. split_and!; try done.
      intros p. rewrite Helem. split; [by intros [_ ?]|done].
  - intros Hin Herror.
    destruct ((numPages s <? 0) || (2 ^ 32 - 1 <? numPages s)) eqn:Hb.
    { assert (numPages s < 0 ∨ 2 ^ 32 - 1 < numPages s) as [|]
        by (by apply Hrange); lia. }
    destruct (error s) as [[|a message]|]; done.
Qed.

(** X8: a load error draws the error screen in place of the document:
    no page surface is left, so nothing in the document can be clicked
    (only the toolbar, the timers and the browser still act), while the
    highlights, the pending selection, the armed highlight and the
    colour are kept. *)
Theorem load_error_hides_document (w : World) :
  let w' := onDocumentLoadError w in
  error (view w')
  = Some "Failed to load PDF. Please try uploading again."
  ∧ renderedPages (view w') = []
  ∧ highlights (view w') = highlights (view w)
  ∧ selectionData (view w') = selectionData (view w)
  ∧ highlightToDelete (view w') = highlightToDelete (view w)
  ∧ selectedColor (view w') = selectedColor (view w)
  ∧ numPages (view w') = numPages (view w)
  ∧ ∀ e, clickable w' e →
         e = TimerFires ∨ e = ClearAll
         ∨ (∃ c, e = PickColor c) ∨ (∃ sel refs, e = Browser sel refs).
Proof.
  destruct w as [[n e hs c d a] refs sel ts ol]. simpl.
  split_and!; try done.
  intros ev Hev. destruct ev; simpl in Hev; try done; eauto 10.
  - by apply elem_of_nil in Hev.
  - destruct Hev as (p & Hp%elem_of_nil & _). done.
  - destruct Hev as (p & dv & Hp%elem_of_nil & _). done.
  - destruct Hev as (p & icon & Hp%elem_of_nil & _). done.
Qed.

(** *** Invariants of a session *)

Lemma pretty_Z_not_empty (x : Z) : pretty x ≠ "".
Proof.
  destruct x as [|p|p]; [done| |done].
  apply (pretty_N_not_empty (N.pos p)).
Qed.

Lemma newId_not_empty (now : Z) (random : string) : newId now random ≠ "".
Proof.
  unfold newId. intros Hempty.
  apply (pretty_Z_not_empty now).
  destruct (pretty now); [done|discriminate].
Qed.

Lemma contentCaptured_step (w : World) (e : Event) :
  contentCaptured (view w) → contentCaptured (view (step w e)).
Proof.
  intros Hinv. pose proof Hinv as [Hstore Hsel].
  destruct e as [n| |pageNumber| |now random|i|i| | |c|sel refs]; simpl;
    try by destruct w as [[] ? ? ? ?].
  - (* TimerFires *)
    unfold fireTimer. destruct (timers w) as [|p rest]; [done|].
    match goal with |- context [selectionTimer _ ?w1] =>
      destruct (selectionTimer_cases_strong p w1)
        as [->|(sd & -> & _ & Hcap)]
    end; [by destruct w as [[] ? ? ? ?]|].
    destruct w as [[] ? ? ? ?]; simpl in *. split; [done|].
    by intros ? [= <-].
  - (* HighlightButton *)
    unfold createHighlight.
    destruct (selectionData (view w)) as [sd|] eqn:Hsd; [|exact Hinv].
    specialize (Hsel sd eq_refl).
    destruct w as [[] ? ? ? ?]; simpl in *. split; [|done].
    apply Forall_app. split; [done|]. apply Forall_singleton.
    split; [done|apply newId_not_empty].
  - (* DeleteButton *)
    destruct w as [[] ? ? ? ?]; simpl in *. split; [|done].
    apply Forall_forall. intros h [_ Hin]%list_elem_of_filter.
    by eapply Forall_forall in Hstore.
Qed.

(** X9: whatever happens after mount, in any order, every stored
    highlight has at least one rectangle, a text that is not empty and
    an id that is not empty, and so has the pending selection its
    rectangles and text: a degenerate selection never reaches the
    store. *)
Theorem stored_content_is_captured
  (o : option (list Z)) (evs : list Event) :
  contentCaptured (view (run (mount o) evs)).
Proof.
  assert (∀ w, contentCaptured (view w) →
               contentCaptured (view (run w evs))) as Hrun.
  { induction evs as [|e evs IH]; intros w Hw; [done|].
    rewrite run_cons. by apply IH, contentCaptured_step. }
  apply Hrun. split; simpl; [apply Forall_nil_2|done].
Qed.

Lemma highlightDivs_elem (p : Z) (s : State) (d : HighlightDiv) :
  d ∈ highlightDivs p s ↔
  ∃ h (rectIndex : nat),
    h ∈ highlights s ∧ Highlight.pageNumber h = p
    ∧ Highlight.rects h !! rectIndex = Some (divRect d)
    ∧ divHighlightId d = Highlight.id h
    ∧ divColor d = Highlight.color h
    ∧ divKey d = Highlight.id h +:+ "-" +:+ pretty rectIndex.
Proof.
  unfold highlightDivs, pageHighlights. rewrite list_elem_of_bind. split.
  - intros (h & Hd & [Hp Hh]%list_elem_of_filter).
    apply elem_of_lookup_imap in Hd as (i & r & -> & Hr).
    exists h, i. by split_and!.
  - intros (h & i & Hh & Hp & Hr & Hid & Hcol & Hkey).
    exists h. split; [|by apply list_elem_of_filter].
    apply elem_of_lookup_imap. exists i, (divRect d). split; [|done].
    destruct d; simpl in *. by subst.
Qed.

Lemma paletteOnly_step (w : World) (e : Event) :
  paletteOnly (view w) → clickable w e → paletteOnly (view (step w e)).
Proof.
  intros Hinv Hclick. pose proof Hinv as [Hsel Hstore].
  destruct e as [n| |pageNumber| |now random|i|i| | |c|sel refs]; simpl;
    try by destruct w as [[] ? ? ? ?].
  - (* TimerFires *)
    destruct (fireTimer_cases w) as [[->|(p & sd & _ & _ & ->)] _];
      [done|by destruct w as [[] ? ? ? ?]].
  - (* HighlightButton *)
    unfold createHighlight.
    destruct (selectionData (view w)) as [sd|] eqn:Hsd; [|exact Hinv].
    destruct w as [[] ? ? ? ?]; simpl in *. split; [done|].
    apply Forall_app. split; [done|]. apply Forall_singleton. simpl.
    by apply (list_elem_of_fmap_2 Color.value) in Hsel.
  - (* DeleteButton *)
    destruct w as [[] ? ? ? ?]; simpl in *. split; [done|].
    apply Forall_forall. intros h [_ Hin]%list_elem_of_filter.
    by eapply Forall_forall in Hstore.
Qed.

(** X10: in a session driven through the elements the component draws,
    the active colour is always one of the five palette entries and the
    fill of every stored highlight is the fill of one of them. *)
Theorem palette_only (o : option (list Z)) (evs : list Event) :
  along clickable (mount o) evs →
  paletteOnly (view (run (mount o) evs)).
Proof.
  assert (∀ w, paletteOnly (view w) → along clickable w evs →
               paletteOnly (view (run w evs))) as Hrun.
  { induction evs as [|e evs IH]; intros w Hw Hclicks; [done|].
    destruct Hclicks as [Hclick Hclicks]. rewrite run_cons.
    apply IH; [by apply paletteOnly_step|done]. }
  apply Hrun. split; simpl; [|apply Forall_nil_2].
  apply list_elem_of_here.
Qed.



Lemma findById_Some (i : string) (hs : list Highlight.t) (h : Highlight.t) :
  findById i hs = Some h → h ∈ hs ∧ Highlight.id h = i.
Proof.
  unfold findById. destruct (list_find _ hs) as [[k h']|] eqn:Hfind; [|done].
  intros [= <-]. apply list_find_Some in Hfind as (Hk & Hid & _).
  split; [by eapply list_elem_of_lookup_2|done].
Qed.





Lemma busyRun_clickable : along clickable (mount None) busyRun.
Proof.
  unfold busyRun, captureRun. simpl app. cbn [along].
  split_and!; try exact I.
  all: try (vm_compute; reflexivity).
  all: try (vm_compute; repeat constructor; fail).
  - exists 2. split; [vm_compute; repeat constructor|].
    vm_compute. eexists. reflexivity.
  - exists 2. eexists. split; [vm_compute; repeat constructor|].
    split; [vm_compute; apply list_elem_of_here|reflexivity].
Qed.

Lemma palette_only_witness :
  along clickable (mount None) busyRun ∧ paletteOnly (view busyWorld).
Proof.
  split; [apply busyRun_clickable|].
  apply (palette_only None busyRun), busyRun_clickable.
Defined.


(** *** The delete button *)

Lemma same_id_same_highlight (hs : list Highlight.t) (h1 h2 : Highlight.t) :
  NoDup (Highlight.id <$> hs) → h1 ∈ hs → h2 ∈ hs →
  Highlight.id h1 = Highlight.id h2 → h1 = h2.
Proof.
  induction hs as [|h hs IH]; simpl; [by intros _ ?%elem_of_nil|].
  intros [Hfresh Hnd]%NoDup_cons [->|H1]%elem_of_cons [->|H2]%elem_of_cons
         Hid; try done.
  - exfalso. apply Hfresh. rewrite Hid. by apply list_elem_of_fmap_2.
  - exfalso. apply Hfresh. rewrite <- Hid. by apply list_elem_of_fmap_2.
  - by apply IH.
Qed.

Lemma deleteIcon_Some (p : Z) (s : State) (icon : DeleteIcon) :
  deleteIcon p s = Some icon →
  ∃ h r rest,
    highlightToDelete s = Some (iconTarget icon)
    ∧ h ∈ highlights s
    ∧ Highlight.pageNumber h = p
    ∧ Highlight.id h = iconTarget icon
    ∧ Highlight.rects h = r :: rest
    ∧ iconLeft icon
      = (DOMRect.x r + DOMRect.width r / Q2Qc 2 - Q2Qc 20)%Qc
    ∧ iconTop icon = (DOMRect.y r - Q2Qc 45)%Qc.
Proof.
  unfold deleteIcon.
  destruct (highlightToDelete s) as [armed|]; [|done].
  destruct (truthy armed); [|done].
  destruct (findById armed (pageHighlights p s)) as [h|] eqn:Hfind; [|done].
  apply findById_Some in Hfind as [[Hp Hh]%list_elem_of_filter Hid].
  destruct (Highlight.rects h) as [|r rest] eqn:Hrects; [done|].
  intros [= <-]. exists h, r, rest. simpl. by rewrite Hid.
Qed.

(** X12: a delete button that is drawn on a page belongs to the armed
    highlight: its click removes the armed id, a stored highlight of
    that page carries this id, and the button sits over the first
    rectangle of that highlight, centred 20 left of its middle and 45
    above its top.  When the ids of the store are pairwise distinct the
    button is drawn on one page at most. *)
Theorem delete_button_belongs_to_armed
  (p : Z) (s : State) (icon : DeleteIcon) :
  deleteIcon p s = Some icon →
  (∃ h r rest,
     highlightToDelete s = Some (iconTarget icon)
     ∧ h ∈ highlights s
     ∧ Highlight.pageNumber h = p
     ∧ Highlight.id h = iconTarget icon
     ∧ Highlight.rects h = r :: rest
     ∧ iconLeft icon
       = (DOMRect.x r + DOMRect.width r / Q2Qc 2 - Q2Qc 20)%Qc
     ∧ iconTop icon = (DOMRect.y r - Q2Qc 45)%Qc)
  ∧ (NoDup (Highlight.id <$> highlights s) →
     ∀ p' icon', deleteIcon p' s = Some icon' → p' = p ∧ icon' = icon).
Proof.
  intros Hicon. pose proof (deleteIcon_Some p s icon Hicon) as Hspec.
  split; [exact Hspec|].
  intros Hnd p' icon' Hicon'.
  destruct Hspec as (h & r & rest & Harmed & Hh & Hp & Hid & _).
  destruct (deleteIcon_Some p' s icon' Hicon')
    as (h' & r' & rest' & Harmed' & Hh' & Hp' & Hid' & _).
  assert (h' = h) as ->.
  { eapply same_id_same_highlight; [exact Hnd|done..|]. congruence. }
  assert (p' = p) as -> by congruence.
  split; [done|]. congruence.
Qed.

Lemma delete_button_belongs_to_armed_witness :
  ∃ icon, deleteIcon 2 (view busyWorld) = Some icon
          ∧ iconTarget icon = "17000000000000.5"
          ∧ highlightToDelete (view busyWorld) = Some (iconTarget icon).
Proof.
  destruct (deleteIcon 2 (view busyWorld)) as [icon|] eqn:Hicon;
    [|vm_compute in Hicon; discriminate].
  exists icon. split; [done|].
  destruct (delete_button_belongs_to_armed 2 (view busyWorld) icon Hicon)
    as [(h & r & rest & Harmed & _) _].
  split; [|exact Harmed].
  vm_compute in Harmed. by injection Harmed.
Defined.

(** X13: arming is exclusive and removal is exact: when the ids of the
    store are pairwise distinct and [a] and [b] are two of them, a click
    on a rectangle of [a], then on one of [b], leaves [b] armed and [a]
    not; the delete button then removes [b] alone: [a] stays, the store
    is one shorter and nothing is armed. *)
Theorem arm_other_then_remove (a b : string) (w : World) :
  NoDup (storeIds w) → a ∈ storeIds w → b ∈ storeIds w → a ≠ b →
  highlightToDelete (view (run w [HighlightClick a; HighlightClick b]))
  = Some b
  ∧ let w' := run w [HighlightClick a; HighlightClick b; DeleteButton b] in
    highlightToDelete (view w') = None
    ∧ a ∈ storeIds w'
    ∧ (b ∉ storeIds w')
    ∧ S (length (highlights (view w'))) = length (highlights (view w))
    ∧ ∀ h, h ∈ highlights (view w) → Highlight.id h ≠ b →
           h ∈ highlights (view w').
Proof.
  intros Hnd Ha Hb Hab.
  destruct w as [[n e hs c d armed] refs sel ts ol].
  unfold storeIds in *. simpl in *. split; [done|]. split_and!.
  - done.
  - apply list_elem_of_fmap in Ha as (h & -> & Hh).
    apply list_elem_of_fmap_2, list_elem_of_filter. by split.
  - intros Hin. apply list_elem_of_fmap in Hin as (h & Hid & Hh).
    apply list_elem_of_filter in Hh as [Hne _]. by apply Hne.
  - by apply filter_id_present.
  - intros h Hh Hne. by apply list_elem_of_filter.
Qed.

Lemma arm_other_then_remove_witness :
  S (length (highlights
               (view (run twoHighlightsWorld
                          [HighlightClick "17000000000000.5";
                           HighlightClick "17000000000010.25";
                           DeleteButton "17000000000010.25"]))))
  = length (highlights (view twoHighlightsWorld)).
Proof.
  apply (arm_other_then_remove "17000000000000.5" "17000000000010.25"
                               twoHighlightsWorld).
  - vm_compute. apply NoDup_cons_2; [|apply NoDup_singleton].
    intros Hin%list_elem_of_singleton. discriminate.
  - vm_compute. apply list_elem_of_here.
  - vm_compute. apply list_elem_of_further, list_elem_of_here.
  - discriminate.
Defined.

(** *** The rectangles of the overlay *)

(** X14: the overlay of a page draws one rectangle for each rectangle of
    each highlight of the page, with the id and the fill of its
    highlight.  The React keys are unique among siblings when the ids of
    the store are pairwise distinct: the keys of the fragments of a page
    are the ids of its highlights, and inside a fragment the keys differ
    by the index of the rectangle. *)
Theorem overlay_rectangles (p : Z) (s : State) :
  length (highlightDivs p s)
  = sum_list ((λ h, length (Highlight.rects h)) <$> pageHighlights p s)
  ∧ (∀ d, d ∈ highlightDivs p s ↔
          ∃ h (rectIndex : nat),
            h ∈ highlights s ∧ Highlight.pageNumber h = p
            ∧ Highlight.rects h !! rectIndex = Some (divRect d)
            ∧ divHighlightId d = Highlight.id h
            ∧ divColor d = Highlight.color h
            ∧ divKey d = Highlight.id h +:+ "-" +:+ pretty rectIndex)
  ∧ (NoDup (Highlight.id <$> highlights s) →
     NoDup (Highlight.id <$> pageHighlights p s))
  ∧ ∀ h : Highlight.t,
      NoDup (imap (λ (rectIndex : nat) (_ : DOMRect.t),
                     Highlight.id h +:+ "-" +:+ pretty rectIndex)
                  (Highlight.rects h)).
Proof.
  split_and!.
  - unfold highlightDivs.
    induction (pageHighlights p s) as [|h hs IH]; [done|].
    rewrite bind_cons, length_app, length_imap, IH. done.
  - intros d. apply highlightDivs_elem.
  - intros Hnd. eapply sublist_NoDup; [exact Hnd|].
    apply fmap_sublist, sublist_filter.
  - intros h. apply NoDup_alt. intros i j key Hi Hj.
    apply list_lookup_imap_Some in Hi as (ri & _ & ->).
    apply list_lookup_imap_Some in Hj as (rj & _ & Heq).
    apply String.app_inj, String.app_inj in Heq.
    by apply (inj pretty) in Heq.
Qed.

(** ** File validation and upload *)

Lemma endsWith_spec (s suffix : string) :
  endsWith s suffix = true ↔ ∃ stem, s = stem +:+ suffix.
Proof.
  induction s as [|a s IH]; cbn [endsWith].
  - rewrite orb_false_r, String.eqb_eq. split.
    + intros <-. by exists "".
    + intros ([|b stem] & Heq); [done|discriminate].
  - rewrite orb_true_iff, String.eqb_eq, IH. split.
    + intros [<-|(stem & ->)]; [by exists ""|by exists (String a stem)].
    + intros ([|b stem] & Heq); [by left|].
      right. exists stem. change (String a s = String b (stem +:+ suffix))
        in Heq. by injection Heq.
Qed.

Lemma toLowerCase_app (s1 s2 : string) :
  toLowerCase (s1 +:+ s2) = toLowerCase s1 +:+ toLowerCase s2.
Proof. induction s1 as [|a s1 IH]; simpl; [done|by rewrite IH]. Qed.

Lemma toLowerCase_split (s low suffix : string) :
  toLowerCase s = low +:+ suffix →
  ∃ stem ext, s = stem +:+ ext ∧ toLowerCase ext = suffix.
Proof.
  revert s. induction low as [|c low IH]; intros s Hlow.
  - by exists "", s.
  - rewrite append_cons in Hlow. destruct s as [|a s]; [done|].
    simpl in Hlow. injection Hlow as _ Hlow.
    destruct (IH s Hlow) as (stem & ext & -> & Hext).
    by exists (String a stem), ext.
Qed.

(** X15: a file passes [validatePDFFile] exactly when its type is
    [application/pdf], its name ends with an extension that reads
    [.pdf] whatever the case of its letters, and its size is at least 1
    and at most 1048576 bytes (1 MB itself is accepted); and the result
    carries an error message exactly when the file is rejected. *)
Theorem validatePDFFile_accepts (file : File) :
  (ValidationResult.valid (validatePDFFile file) = true ↔
   fileType file = "application/pdf"
   ∧ (∃ stem ext, fileName file = stem +:+ ext ∧ toLowerCase ext = ".pdf")
   ∧ (1 ≤ fileSize file ≤ 1048576)%N)
  ∧ (ValidationResult.error (validatePDFFile file) = None ↔
     ValidationResult.valid (validatePDFFile file) = true).
Proof.
  assert (endsWith (toLowerCase (fileName file)) ".pdf" = true ↔
          ∃ stem ext, fileName file = stem +:+ ext
                      ∧ toLowerCase ext = ".pdf") as Hext.
  { rewrite endsWith_spec. split.
    - intros (low & Hlow). by eapply toLowerCase_split.
    - intros (stem & ext & -> & Hlow). exists (toLowerCase stem).
      by rewrite toLowerCase_app, Hlow. }
  unfold validatePDFFile, ALLOWED_MIME_TYPE, MAX_FILE_SIZE.
  destruct (String.eqb (fileType file) "application/pdf") eqn:Htype; simpl.
  2: { apply String.eqb_neq in Htype. split; split; try done.
       by intros [? _]. }
  apply String.eqb_eq in Htype.
  destruct (endsWith (toLowerCase (fileName file)) ".pdf") eqn:Hends; simpl.
  2: { split; split; try done. intros (_ & Hx & _).
       apply Hext in Hx. congruence. }
  destruct (N.ltb_spec (1 * 1024 * 1024) (fileSize file)); simpl.
  { split; split; try done. intros (_ & _ & Hsize). lia. }
  destruct (N.eqb_spec (fileSize file) 0); simpl.
  { split; split; try done. intros (_ & _ & Hsize). lia. }
  split; split; try done. intros _. split_and!; [done|by apply Hext|lia..].
Qed.

Lemma validatePDFFile_message (file : File) :
  ValidationResult.valid (validatePDFFile file) = false →
  ∃ msg, ValidationResult.error (validatePDFFile file) = Some msg
         ∧ msg ∈ rejectionMessages
         ∧ errorOrDefault (ValidationResult.error (validatePDFFile file))
           = msg.
Proof.
  unfold validatePDFFile, rejectionMessages.
  destruct (String.eqb (fileType file) ALLOWED_MIME_TYPE); simpl.
  2: { intros _. eexists. split_and!; [done| |done]. set_solver. }
  destruct (endsWith (toLowerCase (fileName file)) ".pdf"); simpl.
  2: { intros _. eexists. split_and!; [done| |done]. set_solver. }
  destruct (MAX_FILE_SIZE <? fileSize file)%N; simpl.
  { intros _. eexists. split_and!; [done| |done].
    apply list_elem_of_further, list_elem_of_further, list_elem_of_here. }
  destruct (fileSize file =? 0)%N; simpl; [|done].
  intros _. eexists. split_and!; [done| |done]. set_solver.
Qed.

(** X16: the uploader looks at the first file only.  A drop or a file
    selection hands that file to [onFileUpload] exactly when it passes
    [validatePDFFile], and then shows no error; a rejected file is not
    handed over and the error shown is the validator's own message, one
    of four (the fallback text is never shown); with no file at all the
    error is cleared and nothing is handed over.  A drop also ends the
    drag highlight. *)
Theorem uploader_hands_over_valid_files
  (files : option (list File)) (u : Uploader) :
  dragActive (handleDrop files u) = false
  ∧ dragActive (handleChange files u) = dragActive u
  ∧ onFileUpload (handleChange files u) = onFileUpload (handleDrop files u)
  ∧ uploaderError (handleChange files u) = uploaderError (handleDrop files u)
  ∧ (∀ file rest,
       files = Some (file :: rest) →
       handleDrop files u = handleDrop (Some [file]) u
       ∧ (ValidationResult.valid (validatePDFFile file) = true →
          onFileUpload (handleDrop files u) = onFileUpload u ++ [file]
          ∧ uploaderError (handleDrop files u) = None)
       ∧ (ValidationResult.valid (validatePDFFile file) = false →
          onFileUpload (handleDrop files u) = onFileUpload u
          ∧ ∃ msg, uploaderError (handleDrop files u) = Some msg
                   ∧ msg ∈ rejectionMessages
                   ∧ ValidationResult.error (validatePDFFile file)
                     = Some msg))
  ∧ (files = None ∨ files = Some [] →
     onFileUpload (handleDrop files u) = onFileUpload u
     ∧ uploaderError (handleDrop files u) = None).
Proof.
  split_and!.
  - unfold handleDrop. destruct files as [[|file rest]|]; simpl; try done.
    by destruct (ValidationResult.valid (validatePDFFile file)).
  - unfold handleChange. destruct files as [[|file rest]|]; simpl; try done.
    by destruct (ValidationResult.valid (validatePDFFile file)).
  - unfold handleChange, handleDrop.
    destruct files as [[|file rest]|]; simpl; try done.
    by destruct (ValidationResult.valid (validatePDFFile file)).
  - unfold handleChange, handleDrop.
    destruct files as [[|file rest]|]; simpl; try done.
    by destruct (ValidationResult.valid (validatePDFFile file)).
  - intros file rest ->. unfold handleDrop. simpl. split_and!; [done|..].
    + by intros ->.
    + intros Hbad. rewrite Hbad. simpl. split; [done|].
      destruct (validatePDFFile_message file Hbad) as (msg & Hmsg & Hin & Hd).
      exists msg. by rewrite Hd.
  - by intros [->| ->].
Qed.

Lemma uploader_hands_over_valid_files_witness :
  ValidationResult.valid (validatePDFFile samplePdf) = true
  ∧ onFileUpload (handleDrop (Some [samplePdf; mkFile "x.exe" "" 0])
                             (mkUploader true (Some "File is empty") []))
    = [samplePdf].
Proof.
  split; [reflexivity|].
  destruct (uploader_hands_over_valid_files
              (Some [samplePdf; mkFile "x.exe" "" 0])
              (mkUploader true (Some "File is empty") []))
    as (_ & _ & _ & _ & Hfirst & _).
  destruct (Hfirst samplePdf [mkFile "x.exe" "" 0] eq_refl)
    as (_ & Hvalid & _).
  by destruct (Hvalid eq_refl) as [-> _].
Defined.

(** *** Sanitizing a file name *)

Lemma isSafeChar_underscore : isSafeChar (Ascii.ascii_of_nat 95) = true.
Proof. reflexivity. Qed.

(** X17: [sanitizeFilename] works character by character: the result
    has the length of the name, a safe character (a letter, a digit, a
    dot, an underscore or a hyphen) stays where it is and any other
    becomes an underscore.  So every character of the result is safe
    (no slash, no backslash, no space), a name of safe characters comes
    back unchanged, and sanitizing twice changes nothing more. *)
Theorem sanitizeFilename_spec (filename : string) :
  String.length (sanitizeFilename filename) = String.length filename
  ∧ (∀ i : nat,
       String.get i (sanitizeFilename filename)
       = (λ c, if isSafeChar c then c else Ascii.ascii_of_nat 95)
           <$> String.get i filename)
  ∧ (∀ (i : nat) c, String.get i (sanitizeFilename filename) = Some c →
                    isSafeChar c = true)
  ∧ ((∀ (i : nat) c, String.get i filename = Some c → isSafeChar c = true) →
     sanitizeFilename filename = filename)
  ∧ sanitizeFilename (sanitizeFilename filename) = sanitizeFilename filename.
Proof.
  split_and!.
  - induction filename as [|a rest IH]; simpl; [done|by rewrite IH].
  - induction filename as [|a rest IH]; intros [|i]; simpl; done.
  - induction filename as [|a rest IH]; intros [|i] c; simpl; try done;
      try apply IH.
    intros [= <-]. destruct (isSafeChar a) eqn:Hsafe; [done|reflexivity].
  - induction filename as [|a rest IH]; intros Hsafe; simpl; [done|].
    rewrite (Hsafe 0%nat a eq_refl). f_equal. apply IH.
    intros i c Hi. by apply (Hsafe (S i) c).
  - induction filename as [|a rest IH]; simpl; [done|]. rewrite IH.
    destruct (isSafeChar a) eqn:Hsafe; [by rewrite Hsafe|].
    by rewrite isSafeChar_underscore.
Qed.

Lemma sanitizeFilename_spec_witness :
  sanitizeFilename "report-v2.final_1.pdf" = "report-v2.final_1.pdf"
  ∧ sanitizeFilename "../my file.pdf" = ".._my_file.pdf".
Proof.
  split; [|reflexivity].
  destruct (sanitizeFilename_spec "report-v2.final_1.pdf")
    as (_ & _ & _ & Hsame & _).
  apply Hsame. intros i c Hi.
  do 21 (destruct i as [|i]; [injection Hi as <-; reflexivity|]).
  discriminate.
Defined.

(** ** The chat *)

Lemma trimEnd_idem (s : string) : trimEnd (trimEnd s) = trimEnd s.
Proof.
  induction s as [|a s IH]; [done|]. simpl.
  destruct (trimEnd s) as [|b t] eqn:Ht.
  - destruct (isWhiteSpace a) eqn:Ha; [done|]. simpl. by rewrite Ha.
  - change (trimEnd (String a (String b t)) = String a (String b t)).
    cbn [trimEnd] in IH |- *. by rewrite IH.
Qed.

Lemma trimStart_head (s : string) :
  match trimStart s with
  | EmptyString => True
  | String a _ => isWhiteSpace a = false
  end.
Proof.
  induction s as [|a s IH]; [done|]. simpl.
  destruct (isWhiteSpace a) eqn:Ha; [done|]. by rewrite Ha.
Qed.

Lemma trimEnd_head (s : string) :
  match s with
  | EmptyString => True
  | String a _ => isWhiteSpace a = false
  end →
  match trimEnd s with
  | EmptyString => True
  | String a _ => isWhiteSpace a = false
  end.
Proof.
  destruct s as [|a s]; [done|]. intros Ha. simpl.
  destruct (trimEnd s); [by rewrite Ha|done].
Qed.

Lemma trimStart_fixed (s : string) :
  match s with
  | EmptyString => True
  | String a _ => isWhiteSpace a = false
  end →
  trimStart s = s.
Proof. destruct s as [|a s]; [done|]. intros Ha. simpl. by rewrite Ha. Qed.

Lemma trim_idem (s : string) : trim (trim s) = trim s.
Proof.
  unfold trim.
  rewrite (trimStart_fixed (trimEnd (trimStart s)))
    by apply trimEnd_head, trimStart_head.
  apply trimEnd_idem.
Qed.

(** X18: the chat box sends a question only when the trimmed input is
    not empty and the box is neither loading nor disabled; what it sends
    is the trimmed input, and it then empties the input.  Otherwise
    nothing changes.  So every question it has sent is non-empty and has
    no white space to trim at either end. *)
Theorem chat_sends_trimmed_questions
  (isLoading disabled : bool) (c : ChatBox) :
  (trim (input c) ≠ "" → isLoading = false → disabled = false →
   handleSubmit isLoading disabled c
   = mkChatBox "" (onSendMessage c ++ [trim (input c)]))
  ∧ (trim (input c) = "" ∨ isLoading = true ∨ disabled = true →
     handleSubmit isLoading disabled c = c)
  ∧ (Forall (λ m, m ≠ "" ∧ trim m = m) (onSendMessage c) →
     Forall (λ m, m ≠ "" ∧ trim m = m)
            (onSendMessage (handleSubmit isLoading disabled c))).
Proof.
  unfold handleSubmit. split_and!.
  - intros Hne -> ->. by destruct (trim (input c)).
  - intros [-> | [-> | ->]]; [done|..].
    + by rewrite andb_false_r.
    + by rewrite andb_false_r.
  - intros Hsent.
    destruct (trim (input c)) as [|a t] eqn:Htrim; [done|].
    destruct isLoading, disabled; simpl; try done.
    apply Forall_app. split; [done|]. apply Forall_singleton.
    split; [done|]. rewrite <- Htrim. apply trim_idem.
Qed.

Lemma chat_sends_trimmed_questions_witness :
  handleSubmit false false (mkChatBox "  What is this about? " [])
  = mkChatBox "" ["What is this about?"].
Proof.
  destruct (chat_sends_trimmed_questions
              false false (mkChatBox "  What is this about? " []))
    as [Hsend _].
  by rewrite Hsend.
Defined.

(** X19: a question typed in the chat box reaches the backend as it is
    shown: when a document is loaded, the question the chat box sends
    becomes the content of the user message appended to the
    conversation, and the request posted for it carries the id of the
    document and that same text. *)
Theorem question_shown_is_question_asked
  (c : ChatBox) (now timestamp : Z) (a : App.t) (doc : PDFDocument.t) :
  trim (input c) ≠ "" →
  App.document a = Some doc →
  let c' := handleSubmit false false c in
  ∃ sent, onSendMessage c' = onSendMessage c ++ [sent]
          ∧ handleSendMessage_begin sent now timestamp a
            = (App.mk (App.document a) (App.fileUrl a)
                      (App.messages a
                       ++ [Message.mk (pretty now) user sent timestamp])
                      (App.isUploading a) true (App.rateLimitInfo a) None
                      (App.isDarkMode a),
               Some (ChatRequest.mk (PDFDocument.id doc) sent)).
Proof.
  intros Hne Hdoc c'. subst c'. exists (trim (input c)).
  destruct (chat_sends_trimmed_questions false false c) as [-> _]; try done.
  split; [done|].
  unfold handleSendMessage_begin, askQuestion. rewrite Hdoc.
  by rewrite trim_idem.
Qed.

Lemma question_shown_is_question_asked_witness :
  (handleSendMessage_begin "What is this about?" 1700000000500 1700000000500
                          sampleApp).2
  = Some (ChatRequest.mk "doc-1" "What is this about?").
Proof.
  destruct (question_shown_is_question_asked
              (mkChatBox "  What is this about? " [])
              1700000000500 1700000000500 sampleApp
              (PDFDocument.mk "doc-1" "thesis.pdf" 1700000000000 (Some 3)))
    as (sent & Hsent & Hbegin); [done|done|].
  injection Hsent as <-.
  change (trim "  What is this about? ") with "What is this about?"
    in Hbegin.
  by rewrite Hbegin.
Defined.

(** X20: an exchange adds two messages: with a document loaded, a
    question followed by its answer, or by the failure of the request,
    leaves the earlier messages in place and appends the user's question
    and one assistant message (the answer, or the apology), whose ids
    differ when the clock did not go back in between; the chat is busy
    in between and free after; an answer updates the rate limit, a
    failure keeps it and sets the error. *)
Theorem exchange_appends_two_messages
  (question : string) (now timestamp now' timestamp' : Z)
  (outcome : ChatResponse.t + option string)
  (a : App.t) (doc : PDFDocument.t) :
  App.document a = Some doc → now ≤ now' →
  let a1 := (handleSendMessage_begin question now timestamp a).1 in
  let a2 :=
    match outcome with
    | inl response => handleSendMessage_resolved response now' timestamp' a1
    | inr err => handleSendMessage_rejected err now' timestamp' a1
    end in
  App.isAsking a1 = true
  ∧ App.isAsking a2 = false
  ∧ App.document a2 = Some doc
  ∧ ∃ ask reply,
      App.messages a2 = App.messages a ++ [ask; reply]
      ∧ Message.role ask = user ∧ Message.content ask = question
      ∧ Message.role reply = assistant
      ∧ Message.id ask ≠ Message.id reply
      ∧ match outcome with
        | inl response =>
            Message.content reply = ChatResponse.answer response
            ∧ App.rateLimitInfo a2
              = Some (ChatResponse.rateLimitInfo response)
            ∧ App.error a2 = None
        | inr err =>
            App.rateLimitInfo a2 = App.rateLimitInfo a
            ∧ App.error a2 = Some (default "Failed to get answer" err)
        end.
Proof.
  intros Hdoc Hclock a1 a2. subst a2 a1.
  unfold handleSendMessage_begin. rewrite Hdoc.
  assert (pretty now ≠ pretty (now' + 1)) as Hids.
  { intros Heq%(inj pretty). lia. }
  destruct outcome as [response|err]; simpl.
  - split_and!; try done. eexists _, _. rewrite <- app_assoc. simpl.
    by split_and!.
  - split_and!; try done. eexists _, _. rewrite <- app_assoc. simpl.
    by split_and!.
Qed.

Lemma exchange_appends_two_messages_witness :
  length (App.messages
            (handleSendMessage_rejected
               None 1700000000900 1700000000900
               (handleSendMessage_begin "Why?" 1700000000500 1700000000500
                                        sampleApp).1))
  = 2%nat.
Proof.
  destruct (exchange_appends_two_messages
              "Why?" 1700000000500 1700000000500 1700000000900 1700000000900
              (inr None) sampleApp
              (PDFDocument.mk "doc-1" "thesis.pdf" 1700000000000 (Some 3)))
    as (_ & _ & _ & ask & reply & Hmsgs & _); [done|done|].
  apply (f_equal length) in Hmsgs. exact Hmsgs.
Defined.

(** ** Upload and reset *)

(** X21: a successful upload starts a new conversation: the viewer and
    the chat replace the upload view, the document takes its id, name
    and page count from the response, the conversation is the single
    message that announces the file (earlier messages are gone), and
    the rate limit shown is kept.  "Upload Different PDF" then brings
    back the upload view, unmounts the viewer, empties the conversation
    and forgets the rate limit, so the chat is enabled again; it leaves
    the error banner as it is.  A failed upload changes neither the
    document nor the conversation and shows the error. *)
Theorem upload_and_reset
  (response : UploadResponse.t) (uploadedAt now timestamp : Z)
  (url : string) (err : option string) (a : App.t) :
  let a0 := handleFileUpload_begin a in
  let a1 := handleFileUpload_resolved response uploadedAt now timestamp url
                                      a0 in
  let a2 := uploadDifferentPDF a1 in
  let a3 := handleFileUpload_rejected err a0 in
  (App.isUploading a0 = true ∧ App.error a0 = None
   ∧ App.document a0 = App.document a)
  ∧ (showsUploader a1 = false
     ∧ showsViewer a1 = truthy url
     ∧ App.document a1
       = Some (PDFDocument.mk (UploadResponse.documentId response)
                              (UploadResponse.filename response)
                              uploadedAt
                              (Some (UploadResponse.pageCount response)))
     ∧ (∃ m, App.messages a1 = [m] ∧ Message.role m = assistant
             ∧ Message.id m = pretty now)
     ∧ App.isUploading a1 = false
     ∧ App.error a1 = None
     ∧ App.rateLimitInfo a1 = App.rateLimitInfo a)
  ∧ (showsUploader a2 = true
     ∧ showsViewer a2 = false
     ∧ App.messages a2 = []
     ∧ App.rateLimitInfo a2 = None
     ∧ chatDisabled a2 = false
     ∧ App.error a2 = App.error a1)
  ∧ (App.document a3 = App.document a
     ∧ App.messages a3 = App.messages a
     ∧ App.isUploading a3 = false
     ∧ App.error a3 = Some (default "Failed to upload PDF" err)).
Proof.
  destruct a. simpl. unfold showsViewer, showsUploader. simpl.
  split_and!; try done. by eexists.
Qed.

(** ** The rate limit *)

Lemma percentage_within (r : Z) :
  0 ≤ r ≤ 40 → withinBar (percentage r) = true.
Proof.
  intros Hr.
  assert (forallb (λ r, withinBar (percentage r)) (seqZ 0 41) = true)
    as Hall by (vm_compute; reflexivity).
  rewrite forallb_forall in Hall.
  apply Hall, list_elem_of_In, elem_of_seqZ. lia.
Qed.

Lemma percentage_mono (r1 r2 : Z) :
  0 ≤ r1 → r1 ≤ r2 → r2 ≤ 40 →
  PrimFloat.leb (percentage r1) (percentage r2) = true.
Proof.
  intros H1 H2 H3.
  assert (forallb (λ a, forallb (λ b,
            (b <? a) || PrimFloat.leb (percentage a) (percentage b))
            (seqZ 0 41)) (seqZ 0 41) = true) as Hall
    by (vm_compute; reflexivity).
  rewrite forallb_forall in Hall.
  assert (∀ r, 0 ≤ r ≤ 40 → In r (seqZ 0 41)) as Hin.
  { intros r Hr. apply list_elem_of_In, elem_of_seqZ. lia. }
  specialize (Hall r1 (Hin r1 ltac:(lia))).
  rewrite forallb_forall in Hall.
  specialize (Hall r2 (Hin r2 ltac:(lia))).
  apply orb_true_iff in Hall as [Hlt|Hle]; [lia|done].
Qed.

(** X22: the indicator draws nothing without rate-limit information.
    With it, it shows the number of questions left and a bar whose
    width in per cent is the count divided by 40 and multiplied by 100
    in binary64: for 0 to 40 questions a width between 0 and 100 that
    does not go down when the count goes up, 0 for no question left,
    100 for 40 (and not always two and a half times the count: for 11
    it is not 27.5).  Count and bar are red exactly when no question is
    left, orange when 1 to 10 are left (or the count is below zero),
    green above 10; the text says that the limit is reached exactly
    when they are red, which is exactly when the application disables
    the chat. *)
Theorem rate_limit_display (a : App.t) :
  match App.rateLimitInfo a with
  | None => rateLimitIndicator (App.rateLimitInfo a) = None
            ∧ chatDisabled a = false
  | Some info =>
      let remaining := RateLimitInfo.questionsRemaining info in
      ∃ ind,
        rateLimitIndicator (App.rateLimitInfo a) = Some ind
        ∧ shownCount ind = remaining
        ∧ barWidth ind = percentage remaining
        ∧ (0 ≤ remaining ≤ 40 →
           PrimFloat.leb 0 (barWidth ind) = true
           ∧ PrimFloat.leb (barWidth ind) 100 = true
           ∧ ∀ fewer, 0 ≤ fewer ≤ remaining →
                      PrimFloat.leb (percentage fewer) (barWidth ind)
                      = true)
        ∧ (remaining = 0 → barWidth ind = 0%float)
        ∧ (remaining = 40 → barWidth ind = 100%float)
        ∧ (remaining = 11 → barWidth ind ≠ 27.5%float)
        ∧ (statusColor ind = red ↔ remaining = 0)
        ∧ (statusColor ind = orange ↔ remaining ≤ 10 ∧ remaining ≠ 0)
        ∧ (statusColor ind = green ↔ 10 < remaining)
        ∧ (limitReached ind = true ↔ remaining = 0)
        ∧ (chatDisabled a = true ↔ limitReached ind = true)
  end.
Proof.
  unfold chatDisabled.
  destruct (App.rateLimitInfo a) as [info|]; [|done]. simpl.
  set (r := RateLimitInfo.questionsRemaining info).
  eexists. split; [reflexivity|]. simpl.
  split_and!; try done.
  - intros Hr. pose proof (percentage_within r Hr) as Hin.
    apply andb_true_iff in Hin as [Hlow Hhigh]. split_and!; [done..|].
    intros fewer Hfewer. apply percentage_mono; lia.
  - by intros ->.
  - by intros ->.
  - intros -> Heq.
    apply (f_equal (λ x, PrimFloat.eqb x 27.5%float)) in Heq.
    vm_compute in Heq. discriminate.
  - repeat case_bool_decide; split; intros; destruct_and?; try done; lia.
  - repeat case_bool_decide; split; intros; destruct_and?; try done; lia.
  - repeat case_bool_decide; split; intros; destruct_and?; try done; lia.
  - by rewrite bool_decide_eq_true.
Qed.
